(** * asteroidSim: the collision estimator of [CollisionAnalysis.tsx]

    A shallow embedding of [calculateCollisionProbability] and of the
    JavaScript built-ins it calls, followed by the properties of the
    estimator; then of what the analysis card displays, of the selector
    ([handleAsteroidSelect], [fetchAsteroids],
    [getClosestApproachDistance]) and of the scripted run of
    [ImpactSimulation], each with its properties.

    Numbers.  A JavaScript number is modelled as an exact real, one of the
    two infinities, or NaN: rounding to binary64, overflow and the sign of
    zero are not represented (a zero divisor is read as +0).  Every
    arithmetic step of the source is kept as its own operation, in the
    order the source performs it.  A property of a product or a power of
    inputs is stated for the magnitudes at which binary64 does not
    overflow or underflow ([moderate]). *)

From Stdlib Require Import Reals Lra Lia ZArith List Bool String Ascii.
From Stdlib Require Import Permutation Sorted.
Import ListNotations.
Open Scope R_scope.

(** ** JavaScript numbers *)

Module JS.

Inductive number : Type :=
| NaN
| NegInf
| Fin (r : R)
| PosInf.

Definition Rltb (a b : R) : bool := if Rlt_dec a b then true else false.
Definition Reqb (a b : R) : bool := if Req_EM_T a b then true else false.

(** Sign of a number that is not NaN ([Eq] for zero). *)
Definition sign (x : number) : comparison :=
  match x with
  | NaN => Eq
  | NegInf => Lt
  | PosInf => Gt
  | Fin r => if Rltb r 0 then Lt else if Rltb 0 r then Gt else Eq
  end.

Definition neg (x : number) : number :=
  match x with
  | NaN => NaN
  | NegInf => PosInf
  | PosInf => NegInf
  | Fin r => Fin (- r)
  end.

(** [x + y] *)
Definition add (x y : number) : number :=
  match x, y with
  | NaN, _ | _, NaN => NaN
  | Fin a, Fin b => Fin (a + b)
  | PosInf, NegInf | NegInf, PosInf => NaN
  | PosInf, _ | _, PosInf => PosInf
  | NegInf, _ | _, NegInf => NegInf
  end.

(** [x - y] *)
Definition sub (x y : number) : number := add x (neg y).

(** [x * y] *)
Definition mul (x y : number) : number :=
  match x, y with
  | NaN, _ | _, NaN => NaN
  | Fin a, Fin b => Fin (a * b)
  | _, _ =>
      match sign x, sign y with
      | Eq, _ | _, Eq => NaN
      | Lt, Lt | Gt, Gt => PosInf
      | _, _ => NegInf
      end
  end.

(** [x / y] *)
Definition div (x y : number) : number :=
  match x, y with
  | NaN, _ | _, NaN => NaN
  | Fin a, Fin b =>
      if Reqb b 0 then
        match sign x with Eq => NaN | Gt => PosInf | Lt => NegInf end
      else Fin (a / b)
  | Fin _, _ => Fin 0
  | _, Fin _ =>
      match sign x, sign y with
      | Gt, Lt | Lt, Gt | Lt, Eq => NegInf
      | _, _ => PosInf
      end
  | _, _ => NaN
  end.

(** [x < y]: false as soon as an operand is NaN. *)
Definition lt (x y : number) : bool :=
  match x, y with
  | NaN, _ | _, NaN => false
  | Fin a, Fin b => Rltb a b
  | NegInf, NegInf => false
  | NegInf, _ => true
  | _, PosInf => match x with PosInf => false | _ => true end
  | _, _ => false
  end.

(** [x > y] *)
Definition gt (x y : number) : bool := lt y x.

Definition isNaN (x : number) : bool :=
  match x with NaN => true | _ => false end.

Definition isFinite (x : number) : bool :=
  match x with Fin _ => true | _ => false end.

End JS.

Import JS.

Declare Scope js_scope.
Delimit Scope js_scope with js.
Bind Scope js_scope with number.
Infix "+" := add : js_scope.
Infix "-" := sub : js_scope.
Infix "*" := mul : js_scope.
Infix "/" := div : js_scope.
Infix "<?" := lt (at level 70) : js_scope.
Infix ">?" := gt (at level 70) : js_scope.
Coercion Fin : R >-> number.

(** ** The [Math] object *)

Module Math.

(** [Math.max(a, b)] *)
Definition max (a b : number) : number :=
  match a, b with
  | NaN, _ | _, NaN => NaN
  | _, _ => if lt a b then b else a
  end.

(** [Math.min(a, b)] *)
Definition min (a b : number) : number :=
  match a, b with
  | NaN, _ | _, NaN => NaN
  | _, _ => if lt b a then b else a
  end.

Definition PI : number := Fin Rtrigo1.PI.

(** The exponent is a whole number. *)
Definition is_integer (y : R) : bool := Reqb y (IZR (Int_part y)).

(** The exponent is an odd whole number. *)
Definition is_odd_integer (y : R) : bool :=
  is_integer y && Z.odd (Int_part y).

(** [Math.pow(base, exponent)], following the case list of
    Number::exponentiate. *)
Definition pow (base exponent : number) : number :=
  match exponent with
  | NaN => NaN
  | Fin y =>
      if Reqb y 0 then Fin 1 else
      match base with
      | NaN => NaN
      | PosInf => if Rltb 0 y then PosInf else Fin 0
      | NegInf =>
          if Rltb 0 y then (if is_odd_integer y then NegInf else PosInf)
          else Fin 0
      | Fin x =>
          if Reqb x 0 then (if Rltb 0 y then Fin 0 else PosInf)
          else if Rltb 0 x then Fin (Rpower x y)
          else if is_integer y then
            Fin (if Z.odd (Int_part y) then - Rpower (- x) y
                 else Rpower (- x) y)
          else NaN
      end
  | PosInf =>
      match base with
      | NaN => NaN
      | Fin x =>
          if Rltb 1 (Rabs x) then PosInf
          else if Reqb (Rabs x) 1 then NaN else Fin 0
      | _ => PosInf
      end
  | NegInf =>
      match base with
      | NaN => NaN
      | Fin x =>
          if Rltb 1 (Rabs x) then Fin 0
          else if Reqb (Rabs x) 1 then NaN else PosInf
      | _ => Fin 0
      end
  end.

End Math.

(** ** [parseFloat]

    A string is a sequence of code units below 256.  [parseFloat] drops
    leading white space, takes the longest prefix that is a
    StrDecimalLiteral and returns its value; with no such prefix it returns
    NaN. *)

Module Parse.

Open Scope Z_scope.

Definition isStrWhiteSpaceChar (c : ascii) : bool :=
  let n := Z.of_nat (nat_of_ascii c) in
  ((9 <=? n) && (n <=? 13)) || (n =? 32) || (n =? 160).

Fixpoint trimStart (s : string) : string :=
  match s with
  | String c rest => if isStrWhiteSpaceChar c then trimStart rest else s
  | EmptyString => s
  end.

Definition digit_of (c : ascii) : option Z :=
  let n := Z.of_nat (nat_of_ascii c) in
  if (48 <=? n) && (n <=? 57) then Some (n - 48) else None.

(** DecimalDigits_opt: the digits read extend [acc]; [count] is how many
    were read. *)
Fixpoint scanDigits (s : string) (acc count : Z) : Z * Z * string :=
  match s with
  | String c rest =>
      match digit_of c with
      | Some d => scanDigits rest (10 * acc + d) (count + 1)
      | None => (acc, count, s)
      end
  | EmptyString => (acc, count, s)
  end.

Definition isExponentIndicator (c : ascii) : bool :=
  let n := Z.of_nat (nat_of_ascii c) in (n =? 101) || (n =? 69).

(** ExponentPart_opt: the exponent read, 0 when there is none. *)
Definition scanExponent (s : string) : Z :=
  match s with
  | String c rest =>
      if isExponentIndicator c then
        let '(sg, rest') :=
          match rest with
          | String "+"%char r => (1, r)
          | String "-"%char r => (-1, r)
          | _ => (1, rest)
          end in
        let '(v, n, _) := scanDigits rest' 0 0 in
        if n =? 0 then 0 else sg * v
      else 0
  | EmptyString => 0
  end.

(** The value read: [Infinity], or mantissa * 10 ^ exponent. *)
Inductive literal : Type :=
| LitInfinity
| LitDecimal (mantissa exponent : Z).

(** StrUnsignedDecimalLiteral, longest prefix. *)
Definition scanUnsigned (s : string) : option literal :=
  if String.prefix "Infinity" s then Some LitInfinity else
  let '(ip, ni, rest) := scanDigits s 0 0 in
  match rest with
  | String "."%char rest' =>
      let '(m, nf, rest'') := scanDigits rest' ip 0 in
      if (ni =? 0) && (nf =? 0) then None
      else Some (LitDecimal m (scanExponent rest'' - nf))
  | _ => if ni =? 0 then None else Some (LitDecimal ip (scanExponent rest))
  end.

(** StrDecimalLiteral: an optional sign, then the unsigned literal. *)
Definition scanFloat (s : string) : option (bool * literal) :=
  match trimStart s with
  | String "-"%char rest => option_map (pair true) (scanUnsigned rest)
  | String "+"%char rest => option_map (pair false) (scanUnsigned rest)
  | t => option_map (pair false) (scanUnsigned t)
  end.

Close Scope Z_scope.

Definition decimal_value (m e : Z) : R :=
  if (0 <=? e)%Z then IZR (m * 10 ^ e) else IZR m / IZR (10 ^ (- e)).

Definition literal_value (l : literal) : number :=
  match l with
  | LitInfinity => PosInf
  | LitDecimal m e => Fin (decimal_value m e)
  end.

Definition parseFloat (s : string) : number :=
  match scanFloat s with
  | None => NaN
  | Some (negative, l) =>
      if negative then neg (literal_value l) else literal_value l
  end.

End Parse.

Import Parse.

(** ** Types of [types/asteroid.ts] *)

Record Diameter : Type := {
  estimated_diameter_min : number;
  estimated_diameter_max : number
}.

Record RelativeVelocity : Type := { kilometers_per_second : string }.
Record MissDistance : Type := { kilometers : string }.

Record CloseApproach : Type := {
  epoch_date_close_approach : number;
  relative_velocity : RelativeVelocity;
  miss_distance : MissDistance
}.

Record OrbitClass : Type := {
  orbit_class_type : string;
  orbit_class_description : string
}.

Record OrbitalData : Type := {
  orbit_class : OrbitClass;
  inclination : string;
  eccentricity : string;
  semi_major_axis : string
}.

Record Asteroid : Type := {
  id : string;
  name : string;
  diameter : Diameter;
  close_approach_data : list CloseApproach;
  orbital_data : OrbitalData;
  absolute_magnitude_h : number;
  is_potentially_hazardous_asteroid : bool
}.

(** [CollisionAnalysis]: a field marked [?] is an [option]. *)
Record CollisionAnalysisType : Type := {
  willCollide : bool;
  probability : number;
  timeToImpact : option number;
  impactVelocity : option number;
  kineticEnergy : option number;
  tsunamiRisk : option bool;
  craterSize : option number
}.

(** ** Exceptions, the clock and the random source *)

Inductive error : Type := TypeError.

Inductive completion (A : Type) : Type :=
| Normal (a : A)
| Throw (e : error).
Arguments Normal {A} a.
Arguments Throw {A} e.

(** The world outside the function: [clock k] is what the k-th call of
    [Date.now()] returns, [entropy k] what the k-th call of [Math.random()]
    returns. *)
Record World : Type := {
  clock : nat -> R;
  entropy : nat -> R;
  clock_reads : nat;
  random_draws : nat
}.

Definition Date_now (w : World) : number * World :=
  (Fin (clock w (clock_reads w)),
   {| clock := clock w; entropy := entropy w;
      clock_reads := S (clock_reads w); random_draws := random_draws w |}).

Definition Math_random (w : World) : number * World :=
  (Fin (entropy w (random_draws w)),
   {| clock := clock w; entropy := entropy w;
      clock_reads := clock_reads w; random_draws := S (random_draws w) |}).

(** [Math.random()] returns a number in [0, 1). *)
Definition random_source_ok (w : World) : Prop :=
  forall k, 0 <= entropy w k < 1.

(** The sources are pinned: every read returns the same value. *)
Definition pinned (w : World) : Prop :=
  (forall j k, clock w j = clock w k) /\
  (forall j k, entropy w j = entropy w k).

(** ** [calculateCollisionProbability] *)

Section Estimator.

Open Scope js_scope.

(** [asteroid.close_approach_data[0]]: [undefined] on an empty array. *)
Definition closestApproach (asteroid : Asteroid) : option CloseApproach :=
  nth_error (close_approach_data asteroid) 0.

Definition missDistance (c : CloseApproach) : number :=
  parseFloat (kilometers (miss_distance c)).

Definition velocity (c : CloseApproach) : number :=
  parseFloat (kilometers_per_second (relative_velocity c)).

Definition avgDiameter (asteroid : Asteroid) : number :=
  (estimated_diameter_min (diameter asteroid)
   + estimated_diameter_max (diameter asteroid)) / Fin 2.

Definition earthRadius : number := Fin 6371.

(** The [if]/[else if]/[else] over the miss distance: the values of
    [probability] and [willCollide] after it. *)
Definition distanceBand (missDistance : number) : number * bool :=
  if missDistance <? earthRadius * Fin 2 then
    (Math.max (Fin 0.1) (Fin 1 - missDistance / (earthRadius * Fin 10)),
     missDistance <? earthRadius * Fin 1.5)
  else if missDistance <? earthRadius * Fin 10 then
    (Math.max (Fin 0.001) (Fin 0.1 - missDistance / (earthRadius * Fin 100)),
     false)
  else
    (Math.max (Fin 0.0001)
       (Fin 0.01 - missDistance / (earthRadius * Fin 1000)),
     false).

(** [if (is_potentially_hazardous_asteroid) probability *= 2] *)
Definition hazardAdjust (hazardous : bool) (probability : number) : number :=
  if hazardous then probability * Fin 2 else probability.

(** The value of [probability] when the result record is built, before
    [Math.min]. *)
Definition preClampProbability (hazardous : bool) (missDistance : number)
  : number :=
  hazardAdjust hazardous (fst (distanceBand missDistance)).

Definition mass (diameter : number) : number :=
  (Fin 4 / Fin 3) * Math.PI * Math.pow (diameter / Fin 2) (Fin 3) * Fin 2500.

Definition kineticEnergyOf (mass velocity : number) : number :=
  Fin 0.5 * mass * Math.pow (velocity * Fin 1000) (Fin 2).

Definition craterSizeOf (kineticEnergy : number) : number :=
  Math.pow (kineticEnergy / Fin 1e15) (Fin 0.25) * Fin 1000.

Definition tsunamiRiskOf (diameter : number) (willCollide : bool) : bool :=
  (diameter >? Fin 100) && willCollide.

(** [willCollide ? Date.now() + (Math.random() * 365 * 24 * 60 * 60 * 1000)
    : undefined]: the sources are read only when [willCollide] holds, the
    clock first. *)
Definition timeToImpactOf (willCollide : bool) (w : World)
  : option number * World :=
  if willCollide then
    let (now, w1) := Date_now w in
    let (rnd, w2) := Math_random w1 in
    (Some (now + (rnd * Fin 365 * Fin 24 * Fin 60 * Fin 60 * Fin 1000)), w2)
  else (None, w).

(** The computation from [const closestApproach] to the [analysisResult]
    record.  Reading a property of [undefined] throws a [TypeError]. *)
Definition analysisResult (asteroid : Asteroid) (w : World)
  : completion CollisionAnalysisType * World :=
  match closestApproach asteroid with
  | None => (Throw TypeError, w)
  | Some approach =>
      let missDistance := missDistance approach in
      let velocity := velocity approach in
      let diameter := avgDiameter asteroid in
      let (probability, willCollide) := distanceBand missDistance in
      let probability :=
        hazardAdjust (is_potentially_hazardous_asteroid asteroid)
          probability in
      let mass := mass diameter in
      let kineticEnergy := kineticEnergyOf mass velocity in
      let craterSize := craterSizeOf kineticEnergy in
      let tsunamiRisk := tsunamiRiskOf diameter willCollide in
      let (timeToImpact, w') := timeToImpactOf willCollide w in
      (Normal
         {| willCollide := willCollide;
            probability := Math.min probability (Fin 0.95);
            timeToImpact := timeToImpact;
            impactVelocity := Some velocity;
            kineticEnergy := Some kineticEnergy;
            tsunamiRisk := Some tsunamiRisk;
            craterSize := Some craterSize |},
       w')
  end.








End Estimator.

(** ** Sample inputs *)

Definition sampleOrbit : OrbitalData :=
  {| orbit_class :=
       {| orbit_class_type := "APO";
          orbit_class_description := "Near-Earth asteroid orbit" |};
     inclination := "5.1"; eccentricity := "0.3";
     semi_major_axis := "1.4" |}.

Definition sampleApproach (km kps : string) : CloseApproach :=
  {| epoch_date_close_approach := Fin 1700000000000;
     relative_velocity := {| kilometers_per_second := kps |};
     miss_distance := {| kilometers := km |} |}.

Definition sampleAsteroid (approaches : list CloseApproach)
    (dmin dmax : R) (hazardous : bool) : Asteroid :=
  {| id := "2000433"; name := "433 Eros";
     diameter := {| estimated_diameter_min := Fin dmin;
                    estimated_diameter_max := Fin dmax |};
     close_approach_data := approaches;
     orbital_data := sampleOrbit;
     absolute_magnitude_h := Fin 10.31;
     is_potentially_hazardous_asteroid := hazardous |}.

(** The same asteroid with the hazard flag set to [b]. *)
Definition withHazard (b : bool) (a : Asteroid) : Asteroid :=
  {| id := id a; name := name a; diameter := diameter a;
     close_approach_data := close_approach_data a;
     orbital_data := orbital_data a;
     absolute_magnitude_h := absolute_magnitude_h a;
     is_potentially_hazardous_asteroid := b |}.

(** A world whose clock always reads [t] and whose random source always
    returns [u]. *)
Definition constWorld (t u : R) : World :=
  {| clock := fun _ => t; entropy := fun _ => u;
     clock_reads := 0; random_draws := 0 |}.


(** The same asteroid under another id and with another magnitude. *)
Definition withIdMagnitude (i : string) (h : number) (a : Asteroid)
  : Asteroid :=
  {| id := i; name := name a; diameter := diameter a;
     close_approach_data := close_approach_data a;
     orbital_data := orbital_data a;
     absolute_magnitude_h := h;
     is_potentially_hazardous_asteroid :=
       is_potentially_hazardous_asteroid a |}.

(** A stand-in for [toFixed] that prints nothing of its argument. *)
Definition sampleToFixed (x : number) (digits : nat) : string := "#".

(** The same asteroid with [close_approach_data] replaced. *)
Definition withApproaches (l : list CloseApproach) (a : Asteroid)
  : Asteroid :=
  {| id := id a; name := name a; diameter := diameter a;
     close_approach_data := l;
     orbital_data := orbital_data a;
     absolute_magnitude_h := absolute_magnitude_h a;
     is_potentially_hazardous_asteroid :=
       is_potentially_hazardous_asteroid a |}.

(** ** What the components display *)

(** [x || d] on an optional number: [undefined], NaN and 0 are falsy. *)
Definition js_or (x : option number) (d : number) : number :=
  match x with
  | None => d
  | Some NaN => d
  | Some (Fin r) => if Reqb r 0 then d else Fin r
  | Some v => v
  end.

Section Display.

(** [Number.prototype.toFixed], taken as given. *)
Variable toFixed : number -> nat -> string.

Open Scope string_scope.
Open Scope js_scope.

(** [formatEnergy] of [CollisionAnalysis.tsx]. *)
Definition formatEnergy (energy : number) : string :=
  if energy >? Fin 1e18 then toFixed (energy / Fin 1e18) 1 ++ " EJ"
  else if energy >? Fin 1e15 then toFixed (energy / Fin 1e15) 1 ++ " PJ"
  else if energy >? Fin 1e12 then toFixed (energy / Fin 1e12) 1 ++ " TJ"
  else toFixed (energy / Fin 1e9) 1 ++ " GJ".

(** The text of the kinetic-energy card:
    [formatEnergy(analysis.kineticEnergy || 0)]. *)
Definition kineticEnergyText (analysis : CollisionAnalysisType) : string :=
  formatEnergy (js_or (kineticEnergy analysis) (Fin 0)).

(** The class of the "Global Impact" line. *)
Definition globalImpactClass (analysis : CollisionAnalysisType) : string :=
  if js_or (kineticEnergy analysis) (Fin 0) >? Fin 1e18 then "text-red-400"
  else if js_or (kineticEnergy analysis) (Fin 0) >? Fin 1e15
       then "text-yellow-400"
  else "text-green-400".

(** The label of the "Global Impact" line. *)
Definition globalImpactLabel (analysis : CollisionAnalysisType) : string :=
  if js_or (kineticEnergy analysis) (Fin 0) >? Fin 1e18
  then "EXTINCTION LEVEL"
  else if js_or (kineticEnergy analysis) (Fin 0) >? Fin 1e15 then "REGIONAL"
  else "LOCAL".

(** The callback of [reduce] in [getClosestApproachDistance]. *)
Definition closerOf (closest current : CloseApproach) : CloseApproach :=
  let closestDistance := parseFloat (kilometers (miss_distance closest)) in
  let currentDistance := parseFloat (kilometers (miss_distance current)) in
  if currentDistance <? closestDistance then current else closest.

(** [getClosestApproachDistance] of [AsteroidSelector.tsx]; [reduce]
    without an initial value starts from the first element. *)
Definition getClosestApproachDistance (asteroid : Asteroid) : string :=
  match close_approach_data asteroid with
  | [] => "Unknown"
  | first :: others =>
      let closestApproach := fold_left closerOf others first in
      let distanceKm :=
        parseFloat (kilometers (miss_distance closestApproach)) in
      if distanceKm >? Fin 1000000 then
        toFixed (distanceKm / Fin 1000000) 1 ++ "M km"
      else if distanceKm >? Fin 1000 then
        toFixed (distanceKm / Fin 1000) 0 ++ "K km"
      else toFixed distanceKm 0 ++ " km"
  end.

End Display.

(** ** [AsteroidSelector]: choosing and fetching *)

Module AsteroidSelector.

(** [asteroids.find(a => a.id === asteroidId) || null]: what
    [handleAsteroidSelect] passes to [onAsteroidSelect]. *)
Definition handleAsteroidSelect (asteroids : list Asteroid)
    (asteroidId : string) : option Asteroid :=
  find (fun a => String.eqb (id a) asteroidId) asteroids.

(** The comparator of the sort:
    [(a, b) => b.absolute_magnitude_h - a.absolute_magnitude_h]. *)
Definition byMagnitudeDesc (a b : Asteroid) : number :=
  (absolute_magnitude_h b - absolute_magnitude_h a)%js.

(** [Array.prototype.sort] with a comparator: a stable sort; a positive
    comparator value puts the first argument after the second, every other
    value (NaN counts as 0) does not. *)
Fixpoint sortInsert {A : Type} (comparefn : A -> A -> number) (x : A)
    (l : list A) : list A :=
  match l with
  | [] => [x]
  | y :: l' =>
      if (comparefn x y >? Fin 0)%js then y :: sortInsert comparefn x l'
      else x :: l
  end.

Definition Array_sort {A : Type} (comparefn : A -> A -> number)
    (l : list A) : list A :=
  fold_right (sortInsert comparefn) [] l.

(** [slice(0, n)] *)
Definition slice0 {A : Type} (n : nat) (l : list A) : list A := firstn n l.

(** A value thrown: an [Error] with its message, or anything else. *)
Inductive thrown : Type :=
| ErrorObject (message : string)
| OtherThrown.

(** What the network gives [fetchAsteroids]: [fetch] rejects, or a response
    arrives with its [ok] flag; [json()] then rejects or yields the feed,
    the days of [near_earth_objects] in property order. *)
Inductive JsonOutcome : Type :=
| JsonRejected (t : thrown)
| JsonFeed (near_earth_objects : list (string * list Asteroid)).

Inductive FetchOutcome : Type :=
| FetchRejected (t : thrown)
| FetchResponse (ok : bool) (body : JsonOutcome).

Record Toast : Type := {
  title : string;
  description : string;
  variant : string
}.

(** The state of [AsteroidSelector], with the toasts raised and the lines
    logged, latest first. *)
Record State : Type := {
  asteroids : list Asteroid;
  loading : bool;
  error : option string;
  toasts : list Toast;
  logged : list nat
}.

(** The [forEach] that flattens the days into [allAsteroids]. *)
Definition flattenDays (days : list (string * list Asteroid))
  : list Asteroid :=
  fold_left (fun allAsteroids day => allAsteroids ++ snd day) days [].

Definition sortedAsteroids (days : list (string * list Asteroid))
  : list Asteroid :=
  slice0 20 (Array_sort byMagnitudeDesc (flattenDays days)).

(** The [catch] block. *)
Definition fetchFailed (err : thrown) (s : State) : State :=
  let errorMessage :=
    match err with
    | ErrorObject message => message
    | OtherThrown => "Unknown error occurred"%string
    end in
  {| asteroids := asteroids s; loading := loading s;
     error := Some errorMessage;
     toasts := {| title := "Error fetching asteroid data";
                  description := errorMessage;
                  variant := "destructive" |} :: toasts s;
     logged := logged s |}.

(** [fetchAsteroids], given what the network answers. *)
Definition fetchAsteroids (net : FetchOutcome) (s : State) : State :=
  let s := {| asteroids := asteroids s; loading := true; error := None;
              toasts := toasts s; logged := logged s |} in
  let s :=
    match net with
    | FetchRejected t => fetchFailed t s
    | FetchResponse false _ =>
        fetchFailed (ErrorObject "Failed to fetch asteroid data") s
    | FetchResponse true (JsonRejected t) => fetchFailed t s
    | FetchResponse true (JsonFeed days) =>
        let sorted := sortedAsteroids days in
        {| asteroids := sorted; loading := loading s; error := error s;
           toasts := toasts s; logged := List.length sorted :: logged s |}
    end in
  {| asteroids := asteroids s; loading := false; error := error s;
     toasts := toasts s; logged := logged s |}.

End AsteroidSelector.

(** ** [ImpactSimulation]: the scripted run *)

Module ImpactSimulation.

Record Location : Type := { lat : number; lng : number }.

Record ImpactLocation : Type := {
  name : string;
  location : Location;
  description : string
}.

Definition impactLocations : list ImpactLocation :=
  [ {| name := "Pacific Ocean";
       location := {| lat := Fin 0; lng := Fin (-150) |};
       description := "Deep ocean impact - massive tsunamis" |};
    {| name := "Sahara Desert";
       location := {| lat := Fin 23; lng := Fin 10 |};
       description := "Continental impact - global dust cloud" |};
    {| name := "Atlantic Ocean";
       location := {| lat := Fin 30; lng := Fin (-40) |};
       description := "Atlantic impact - coastal devastation" |};
    {| name := "Siberia";
       location := {| lat := Fin 60; lng := Fin 100 |};
       description := "Remote land impact - limited casualties" |};
    {| name := "Mediterranean Sea";
       location := {| lat := Fin 35; lng := Fin 15 |};
       description := "Enclosed sea impact - regional effects" |} ]%string.

Definition phases : list string :=
  [ "Asteroid entering atmosphere...";
    "Atmospheric compression heating...";
    "Impact imminent...";
    "IMPACT! Shockwave expanding...";
    "Crater formation...";
    "Debris ejection...";
    "Secondary effects spreading...";
    "Simulation complete." ]%string.

(** The state of the component, and how often [onStartSimulation] was
    called. *)
Record State : Type := {
  selectedLocation : option Location;
  isSimulating : bool;
  simulationPhase : string;
  startSignals : nat
}.

Definition setSimulationPhase (p : string) (s : State) : State :=
  {| selectedLocation := selectedLocation s;
     isSimulating := isSimulating s;
     simulationPhase := p; startSignals := startSignals s |}.

Definition setIsSimulating (b : bool) (s : State) : State :=
  {| selectedLocation := selectedLocation s; isSimulating := b;
     simulationPhase := simulationPhase s;
     startSignals := startSignals s |}.

(** The three updates before the loop. *)
Definition begin (l : Location) (s : State) : State :=
  {| selectedLocation := Some l; isSimulating := true;
     simulationPhase := simulationPhase s;
     startSignals := S (startSignals s) |}.

(** The states in which the loop waits, one per phase, in order. *)
Fixpoint frames (ps : list string) (s : State) : list State :=
  match ps with
  | [] => []
  | p :: ps' => setSimulationPhase p s :: frames ps' (setSimulationPhase p s)
  end.

(** [startSimulation]: the states shown while it waits, and the state it
    ends in. *)
Definition startSimulation (l : Location) (s : State)
  : list State * State :=
  let shown := frames phases (begin l s) in
  (shown, setIsSimulating false (last shown (begin l s))).

(** A click on the start button or on the marker of index [i]; both are
    disabled while [isSimulating].  The start button passes the whole of
    the first table entry, of which only [lat] and [lng] are read. *)
Inductive Click : Type :=
| StartButton
| Marker (i : nat).

Definition handleClick (c : Click) (s : State) : State :=
  if isSimulating s then s else
  match c with
  | StartButton =>
      match selectedLocation s with
      | None =>
          match nth_error impactLocations 0 with
          | Some l => snd (startSimulation (location l) s)
          | None => s
          end
      | Some _ => s
      end
  | Marker i =>
      match nth_error impactLocations i with
      | Some l => snd (startSimulation (location l) s)
      | None => s
      end
  end.

End ImpactSimulation.

(** ** Notions used to state the properties of the sort *)

Definition finiteMagnitude (a : Asteroid) : Prop :=
  isFinite (absolute_magnitude_h a) = true.

(** The magnitude as a real, for an asteroid with a finite one. *)
Definition magnitudeR (a : Asteroid) : R :=
  match absolute_magnitude_h a with Fin r => r | _ => 0 end.

(** [a] may stand before [b] in a list of descending magnitude. *)
Definition descending (a b : Asteroid) : Prop :=
  magnitudeR b <= magnitudeR a.

Definition hasMagnitude (k : R) (a : Asteroid) : bool :=
  Reqb (magnitudeR a) k.

(** ** Magnitudes of the energy computation *)

(** A magnitude at which the products and powers of the energy
    computation stay within the normal range of binary64, so that they
    neither overflow to an infinity nor underflow to 0: zero itself, or an
    absolute value between 1e-50 and 1e50. *)
Definition moderate (x : R) : Prop :=
  x = 0 \/ 1e-50 <= Rabs x <= 1e50.

(** ** Notions used to state the properties of the closest approach *)

Definition finiteDistance (c : CloseApproach) : Prop :=
  isFinite (missDistance c) = true.

(** The miss distance as a real, for a record with a finite one. *)
Definition distanceR (c : CloseApproach) : R :=
  match missDistance c with Fin r => r | _ => 0 end.

(** * Properties *)

(** ** Arithmetic on finite numbers *)

Lemma Rltb_true (a b : R) : a < b -> Rltb a b = true.
Proof. intros H. unfold Rltb. destruct (Rlt_dec a b); [reflexivity | contradiction]. Qed.

Lemma Rltb_false (a b : R) : b <= a -> Rltb a b = false.
Proof. intros H. unfold Rltb. destruct (Rlt_dec a b); [lra | reflexivity]. Qed.

Lemma Rltb_true_iff (a b : R) : Rltb a b = true <-> a < b.
Proof.
  unfold Rltb. destruct (Rlt_dec a b); split; intros; try assumption;
    try reflexivity; try discriminate; contradiction.
Qed.

Lemma Rltb_false_iff (a b : R) : Rltb a b = false <-> b <= a.
Proof.
  unfold Rltb. destruct (Rlt_dec a b); split; intros; try discriminate;
    try reflexivity; lra.
Qed.

Lemma Reqb_false (a b : R) : a <> b -> Reqb a b = false.
Proof. intros H. unfold Reqb. destruct (Req_EM_T a b); [contradiction | reflexivity]. Qed.

Lemma Reqb_true (a b : R) : a = b -> Reqb a b = true.
Proof. intros H. unfold Reqb. destruct (Req_EM_T a b); [reflexivity | contradiction]. Qed.

Lemma div_Fin (a b : R) : b <> 0 -> (Fin a / Fin b)%js = Fin (a / b).
Proof. intros H. unfold div. rewrite (Reqb_false _ _ H). reflexivity. Qed.

Lemma max_Fin (a b : R) : Math.max (Fin a) (Fin b) = Fin (Rmax a b).
Proof.
  unfold Math.max, lt, Rltb, Rmax.
  destruct (Rlt_dec a b), (Rle_dec a b); try reflexivity; f_equal; lra.
Qed.

Lemma min_Fin (a b : R) : Math.min (Fin a) (Fin b) = Fin (Rmin a b).
Proof.
  unfold Math.min, lt, Rltb, Rmin.
  destruct (Rlt_dec b a), (Rle_dec a b); try reflexivity; f_equal; lra.
Qed.

(** ** The distance bands on a finite miss distance *)

Lemma distanceBand_near (d : R) :
  d < 2 * 6371 ->
  distanceBand (Fin d) =
    (Fin (Rmax 0.1 (1 - d / (10 * 6371))), Rltb d (1.5 * 6371)).
Proof.
  intros H. unfold distanceBand, earthRadius. cbn [mul lt sub add neg].
  rewrite Rltb_true by lra. rewrite div_Fin by lra.
  cbn [sub add neg]. rewrite max_Fin.
  f_equal; [do 2 f_equal; lra | f_equal; lra].
Qed.

Lemma distanceBand_mid (d : R) :
  2 * 6371 <= d < 10 * 6371 ->
  distanceBand (Fin d) =
    (Fin (Rmax 0.001 (0.1 - d / (100 * 6371))), false).
Proof.
  intros H. unfold distanceBand, earthRadius. cbn [mul lt sub add neg].
  rewrite Rltb_false by lra. rewrite Rltb_true by lra.
  rewrite div_Fin by lra. cbn [sub add neg]. rewrite max_Fin.
  do 3 f_equal; lra.
Qed.

Lemma distanceBand_far (d : R) :
  10 * 6371 <= d ->
  distanceBand (Fin d) =
    (Fin (Rmax 0.0001 (0.01 - d / (1000 * 6371))), false).
Proof.
  intros H. unfold distanceBand, earthRadius. cbn [mul lt sub add neg].
  rewrite !Rltb_false by lra.
  rewrite div_Fin by lra. cbn [sub add neg]. rewrite max_Fin.
  do 3 f_equal; lra.
Qed.

(** ** The result record *)

Lemma analysisResult_normal (asteroid : Asteroid) (approach : CloseApproach)
    (w : World) :
  closestApproach asteroid = Some approach ->
  let band := distanceBand (missDistance approach) in
  let energy := kineticEnergyOf (mass (avgDiameter asteroid))
                  (velocity approach) in
  analysisResult asteroid w =
    (Normal
       {| willCollide := snd band;
          probability :=
            Math.min
              (preClampProbability
                 (is_potentially_hazardous_asteroid asteroid)
                 (missDistance approach))
              (Fin 0.95);
          timeToImpact := fst (timeToImpactOf (snd band) w);
          impactVelocity := Some (velocity approach);
          kineticEnergy := Some energy;
          tsunamiRisk :=
            Some (tsunamiRiskOf (avgDiameter asteroid) (snd band));
          craterSize := Some (craterSizeOf energy) |},
     snd (timeToImpactOf (snd band) w)).
Proof.
  intros H. unfold analysisResult, preClampProbability. rewrite H.
  destruct (distanceBand (missDistance approach)) as [p c]. cbn [fst snd].
  destruct (timeToImpactOf c w) as [t w']. reflexivity.
Qed.

Lemma parseFloat_5000 : parseFloat "5000" = Fin 5000.
Proof. vm_compute. reflexivity. Qed.

Lemma parseFloat_20 : parseFloat "20" = Fin 20.
Proof. vm_compute. reflexivity. Qed.

(** ** C1 *)

(** C1: on an input whose first close approach has a finite miss distance
    [d >= 0], the estimator returns a record; the probability before the
    hazard step and the collision flag follow the three bands with
    R = 6371: below 2R, [max(0.1, 1 - d/(10R))] and [d < 1.5R]; from 2R and
    below 10R, [max(0.001, 0.1 - d/(100R))] and [false]; from 10R on,
    [max(0.0001, 0.01 - d/(1000R))] and [false]. *)
Theorem C1_three_distance_bands (asteroid : Asteroid)
    (approach : CloseApproach) (d : R) (w : World) :
  closestApproach asteroid = Some approach ->
  missDistance approach = Fin d ->
  0 <= d ->
  exists r w',
    analysisResult asteroid w = (Normal r, w') /\
    willCollide r = snd (distanceBand (Fin d)) /\
    probability r =
      Math.min
        (hazardAdjust (is_potentially_hazardous_asteroid asteroid)
           (fst (distanceBand (Fin d))))
        (Fin 0.95) /\
    (d < 2 * 6371 ->
       distanceBand (Fin d) =
         (Fin (Rmax 0.1 (1 - d / (10 * 6371))), Rltb d (1.5 * 6371))) /\
    (2 * 6371 <= d < 10 * 6371 ->
       distanceBand (Fin d) =
         (Fin (Rmax 0.001 (0.1 - d / (100 * 6371))), false)) /\
    (10 * 6371 <= d ->
       distanceBand (Fin d) =
         (Fin (Rmax 0.0001 (0.01 - d / (1000 * 6371))), false)).
Proof.
  intros Hc Hm Hd.
  pose proof (analysisResult_normal asteroid approach w Hc) as Hr.
  cbv zeta in Hr. rewrite Hm in Hr.
  eexists. eexists. split; [exact Hr |].
  cbn [willCollide probability]. unfold preClampProbability.
  repeat split.
  - apply distanceBand_near.
  - apply distanceBand_mid.
  - apply distanceBand_far.
Qed.

Lemma C1_three_distance_bands_witness :
  exists r w',
    analysisResult
      (sampleAsteroid [sampleApproach "5000" "20"] 1 1 false)
      (constWorld 1700000000000 0.5) = (Normal r, w') /\
    willCollide r = snd (distanceBand (Fin 5000)) /\
    probability r =
      Math.min (hazardAdjust false (fst (distanceBand (Fin 5000))))
        (Fin 0.95) /\
    (5000 < 2 * 6371 ->
       distanceBand (Fin 5000) =
         (Fin (Rmax 0.1 (1 - 5000 / (10 * 6371))),
          Rltb 5000 (1.5 * 6371))) /\
    (2 * 6371 <= 5000 < 10 * 6371 ->
       distanceBand (Fin 5000) =
         (Fin (Rmax 0.001 (0.1 - 5000 / (100 * 6371))), false)) /\
    (10 * 6371 <= 5000 ->
       distanceBand (Fin 5000) =
         (Fin (Rmax 0.0001 (0.01 - 5000 / (1000 * 6371))), false)).
Proof.
  apply (C1_three_distance_bands
           (sampleAsteroid [sampleApproach "5000" "20"] 1 1 false)
           (sampleApproach "5000" "20") 5000
           (constWorld 1700000000000 0.5)).
  - reflexivity.
  - exact parseFloat_5000.
  - lra.
Defined.

(** ** Range of the band probability *)

Lemma distanceBand_willCollide (m : number) :
  snd (distanceBand m) = (m <? Fin (1.5 * 6371))%js.
Proof.
  destruct m as [| | d |]; try reflexivity.
  destruct (Rlt_dec d (2 * 6371)) as [Hn | Hn].
  - rewrite distanceBand_near by assumption. reflexivity.
  - destruct (Rlt_dec d (10 * 6371)) as [Hm | Hm].
    + rewrite distanceBand_mid by lra. cbn [snd lt].
      symmetry. apply Rltb_false. lra.
    + rewrite distanceBand_far by lra. cbn [snd lt].
      symmetry. apply Rltb_false. lra.
Qed.

Lemma distanceBand_fin_range (d : R) :
  0 <= d ->
  exists p, fst (distanceBand (Fin d)) = Fin p /\ 0 < p <= 1.
Proof.
  intros Hd.
  destruct (Rlt_dec d (2 * 6371)) as [Hn | Hn].
  - rewrite distanceBand_near by assumption. eexists. split; [reflexivity |].
    unfold Rmax. destruct (Rle_dec _ _); lra.
  - destruct (Rlt_dec d (10 * 6371)) as [Hm | Hm].
    + rewrite distanceBand_mid by lra. eexists. split; [reflexivity |].
      unfold Rmax. destruct (Rle_dec _ _); lra.
    + rewrite distanceBand_far by lra. eexists. split; [reflexivity |].
      unfold Rmax. destruct (Rle_dec _ _); lra.
Qed.

Lemma hazardAdjust_Fin (h : bool) (p : R) :
  hazardAdjust h (Fin p) = Fin (if h then p * 2 else p).
Proof. destruct h; reflexivity. Qed.

Lemma cap_range (h : bool) (p lo : R) :
  0 <= lo <= 0.95 -> lo <= p ->
  exists q, Math.min (hazardAdjust h (Fin p)) (Fin 0.95) = Fin q /\
            lo <= q <= 0.95.
Proof.
  intros Hlo Hp. rewrite hazardAdjust_Fin, min_Fin.
  eexists. split; [reflexivity |].
  unfold Rmin. destruct h; destruct (Rle_dec _ _); lra.
Qed.

(** ** C4 *)

(** C4: for a finite miss distance [d >= 0], velocity [v >= 0] and average
    diameter [D >= 0], with the hazard flag either way, the estimator
    returns a record whose probability is a real in [0, 0.95]. *)
Theorem C4_probability_in_unit_cap (asteroid : Asteroid)
    (approach : CloseApproach) (d v D : R) (w : World) :
  closestApproach asteroid = Some approach ->
  missDistance approach = Fin d ->
  velocity approach = Fin v ->
  avgDiameter asteroid = Fin D ->
  0 <= d -> 0 <= v -> 0 <= D ->
  exists r w' p,
    analysisResult asteroid w = (Normal r, w') /\
    probability r = Fin p /\ 0 <= p <= 0.95.
Proof.
  intros Hc Hm _ _ Hd _ _.
  pose proof (analysisResult_normal asteroid approach w Hc) as Hr.
  cbv zeta in Hr. rewrite Hm in Hr.
  destruct (distanceBand_fin_range d Hd) as [p [Hp Hpr]].
  destruct (cap_range (is_potentially_hazardous_asteroid asteroid) p 0)
    as [q [Hq Hqr]]; [lra | lra |].
  eexists. eexists. exists q. split; [exact Hr |].
  cbn [probability]. unfold preClampProbability. rewrite Hp.
  split; assumption.
Qed.

Lemma C4_probability_in_unit_cap_witness :
  exists r w' p,
    analysisResult
      (sampleAsteroid [sampleApproach "5000" "20"] 1 1 true)
      (constWorld 1700000000000 0.5) = (Normal r, w') /\
    probability r = Fin p /\ 0 <= p <= 0.95.
Proof.
  apply (C4_probability_in_unit_cap
           (sampleAsteroid [sampleApproach "5000" "20"] 1 1 true)
           (sampleApproach "5000" "20") 5000 20 1
           (constWorld 1700000000000 0.5)).
  - reflexivity.
  - exact parseFloat_5000.
  - exact parseFloat_20.
  - unfold avgDiameter, sampleAsteroid.
    cbn [diameter estimated_diameter_min estimated_diameter_max add].
    rewrite div_Fin by lra. f_equal. lra.
  - lra.
  - lra.
  - lra.
Defined.

(** ** C5 *)



(** ** C6 *)

Lemma analysisResult_withHazard (b : bool) (asteroid : Asteroid)
    (approach : CloseApproach) (w : World) :
  closestApproach asteroid = Some approach ->
  exists r w',
    analysisResult (withHazard b asteroid) w = (Normal r, w') /\
    probability r =
      Math.min (preClampProbability b (missDistance approach)) (Fin 0.95).
Proof.
  intros Hc.
  assert (Hc' : closestApproach (withHazard b asteroid) = Some approach)
    by exact Hc.
  pose proof (analysisResult_normal _ approach w Hc') as Hr.
  cbv zeta in Hr. eexists. eexists. split; [exact Hr | reflexivity].
Qed.

(** C6: with the rest of the input unchanged, the probability before the
    clamp under [isHazardous = true] is the one under [isHazardous = false]
    times 2, and in both cases the probability of the result is [Math.min]
    of that value and 0.95.  On a finite miss distance the value before
    the clamp is a real [p > 0] without the flag and the real [p * 2] with
    it, and the two results carry [min p 0.95] and [min (p * 2) 0.95]. *)
Theorem C6_hazard_doubles_before_clamp (asteroid : Asteroid)
    (approach : CloseApproach) (w : World) :
  closestApproach asteroid = Some approach ->
  let m := missDistance approach in
  preClampProbability true m = (preClampProbability false m * Fin 2)%js /\
  (forall p : R,
     preClampProbability false m = Fin p ->
     preClampProbability true m = Fin (p * 2)) /\
  (forall b : bool,
     exists r w',
       analysisResult (withHazard b asteroid) w = (Normal r, w') /\
       probability r = Math.min (preClampProbability b m) (Fin 0.95)) /\
  (forall d : R,
     m = Fin d ->
     exists p rf wf rt wt,
       0 < p /\
       preClampProbability false m = Fin p /\
       preClampProbability true m = Fin (p * 2) /\
       analysisResult (withHazard false asteroid) w = (Normal rf, wf) /\
       probability rf = Fin (Rmin p 0.95) /\
       analysisResult (withHazard true asteroid) w = (Normal rt, wt) /\
       probability rt = Fin (Rmin (p * 2) 0.95)).
Proof.
  intros Hc m. split; [reflexivity |]. split; [| split].
  - intros p Hp. unfold preClampProbability in *. cbn [hazardAdjust] in *.
    rewrite Hp. reflexivity.
  - intros b. apply analysisResult_withHazard. exact Hc.
  - intros d Hd.
    assert (Hb : exists p, fst (distanceBand (Fin d)) = Fin p /\ 0 < p).
    { destruct (Rlt_dec d (2 * 6371)) as [Hn | Hn].
      - rewrite distanceBand_near by assumption.
        eexists. split; [reflexivity |].
        unfold Rmax. destruct (Rle_dec _ _); lra.
      - destruct (Rlt_dec d (10 * 6371)) as [Hm | Hm].
        + rewrite distanceBand_mid by lra. eexists. split; [reflexivity |].
          unfold Rmax. destruct (Rle_dec _ _); lra.
        + rewrite distanceBand_far by lra. eexists. split; [reflexivity |].
          unfold Rmax. destruct (Rle_dec _ _); lra. }
    destruct Hb as [p [Hp Hpos]].
    assert (Hf : preClampProbability false m = Fin p)
      by (unfold preClampProbability; rewrite Hd, Hp; reflexivity).
    assert (Ht : preClampProbability true m = Fin (p * 2))
      by (unfold preClampProbability; rewrite Hd, Hp; reflexivity).
    destruct (analysisResult_withHazard false asteroid approach w Hc)
      as [rf [wf [Hrf Hpf]]].
    destruct (analysisResult_withHazard true asteroid approach w Hc)
      as [rt [wt [Hrt Hpt]]].
    fold m in Hpf, Hpt. rewrite Hf, min_Fin in Hpf.
    rewrite Ht, min_Fin in Hpt.
    exists p, rf, wf, rt, wt. repeat split; assumption.
Qed.

Lemma C6_hazard_doubles_before_clamp_witness :
  let m := missDistance (sampleApproach "5000" "20") in
  let a := sampleAsteroid [sampleApproach "5000" "20"] 1 1 false in
  let w := constWorld 1700000000000 0.5 in
  preClampProbability true m = (preClampProbability false m * Fin 2)%js /\
  exists p rf wf rt wt,
    0 < p /\
    preClampProbability false m = Fin p /\
    preClampProbability true m = Fin (p * 2) /\
    analysisResult (withHazard false a) w = (Normal rf, wf) /\
    probability rf = Fin (Rmin p 0.95) /\
    analysisResult (withHazard true a) w = (Normal rt, wt) /\
    probability rt = Fin (Rmin (p * 2) 0.95).
Proof.
  intros m a w.
  destruct (C6_hazard_doubles_before_clamp a (sampleApproach "5000" "20") w
              eq_refl) as [Hmul [_ [_ Hfin]]].
  split; [exact Hmul |].
  exact (Hfin 5000 parseFloat_5000).
Defined.

(** ** C10 *)

Lemma distanceBand_NegInf : distanceBand NegInf = (PosInf, true).
Proof.
  unfold distanceBand, earthRadius. cbn [mul lt]. unfold div.
  cbn [sign]. rewrite Rltb_false by lra. rewrite Rltb_true by lra.
  reflexivity.
Qed.

Lemma hazardAdjust_PosInf (h : bool) : hazardAdjust h PosInf = PosInf.
Proof.
  destruct h; [| reflexivity]. unfold hazardAdjust, mul. cbn [sign].
  rewrite Rltb_false by lra. rewrite Rltb_true by lra. reflexivity.
Qed.

(** C10: whenever the estimator returns a record with [willCollide] true,
    the probability of that record is a real in [0.85, 0.95]. *)
Theorem C10_collision_probability_range (asteroid : Asteroid) (w w' : World)
    (r : CollisionAnalysisType) :
  analysisResult asteroid w = (Normal r, w') ->
  willCollide r = true ->
  exists p, probability r = Fin p /\ 0.85 <= p <= 0.95.
Proof.
  intros Hr Hw.
  destruct (closestApproach asteroid) as [approach |] eqn:Hc.
  2:{ unfold analysisResult in Hr. rewrite Hc in Hr. discriminate. }
  pose proof (analysisResult_normal asteroid approach w Hc) as Hn.
  cbv zeta in Hn. rewrite Hn in Hr. clear Hn.
  injection Hr as Hr _. subst r. cbn [willCollide probability] in *.
  rewrite distanceBand_willCollide in Hw. unfold preClampProbability.
  destruct (missDistance approach) as [| | d |]; try discriminate.
  - rewrite distanceBand_NegInf. cbn [fst]. rewrite hazardAdjust_PosInf.
    exists 0.95. split; [reflexivity | lra].
  - cbn [lt] in Hw. apply Rltb_true_iff in Hw.
    rewrite distanceBand_near by lra. cbn [fst].
    apply cap_range; [lra |].
    unfold Rmax. destruct (Rle_dec _ _); lra.
Qed.

Lemma C10_collision_probability_range_witness :
  exists r w' p,
    analysisResult
      (sampleAsteroid [sampleApproach "5000" "20"] 1 1 false)
      (constWorld 1700000000000 0.5) = (Normal r, w') /\
    willCollide r = true /\
    probability r = Fin p /\ 0.85 <= p <= 0.95.
Proof.
  pose proof (analysisResult_normal
                (sampleAsteroid [sampleApproach "5000" "20"] 1 1 false)
                (sampleApproach "5000" "20")
                (constWorld 1700000000000 0.5) eq_refl) as Hr.
  cbv zeta in Hr.
  match type of Hr with
  | _ = (Normal ?r, ?w') =>
      assert (Hw : willCollide r = true);
      [ cbn [willCollide]; rewrite distanceBand_willCollide;
        change (missDistance (sampleApproach "5000" "20"))
          with (parseFloat "5000");
        rewrite parseFloat_5000; cbn [lt]; apply Rltb_true; lra
      | destruct (C10_collision_probability_range _ _ _ _ Hr Hw)
          as [p [Hp Hrange]];
        exists r, w', p; repeat split; try assumption; apply Hrange ]
  end.
Defined.

(** * Further properties of the estimator *)

(** ** The whole function and the component state *)






(** Only the first close-approach record is consulted: replacing the
    records after it, by anything, leaves the result and the world after
    the call unchanged. *)
Theorem only_first_approach_consulted (asteroid : Asteroid)
    (approach : CloseApproach) (rest rest' : list CloseApproach)
    (w : World) :
  analysisResult (withApproaches (approach :: rest) asteroid) w =
  analysisResult (withApproaches (approach :: rest') asteroid) w.
Proof. reflexivity. Qed.

(** ** Unparseable strings *)

Lemma mul_NaN_r (x : number) : (x * NaN)%js = NaN.
Proof. destruct x; reflexivity. Qed.

Lemma distanceBand_NaN : distanceBand NaN = (NaN, false).
Proof. reflexivity. Qed.

Lemma preClampProbability_NaN (h : bool) : preClampProbability h NaN = NaN.
Proof. destruct h; reflexivity. Qed.

(** X3: When the miss distance of the first record does not parse,
    [parseFloat] gives NaN and no error is raised: the function returns a
    record whose probability is NaN, with [willCollide] and [tsunamiRisk]
    false and no [timeToImpact]; the clock and the random source are not
    read. *)
Theorem unparseable_distance_yields_NaN_probability (asteroid : Asteroid)
    (approach : CloseApproach) (w : World) :
  closestApproach asteroid = Some approach ->
  missDistance approach = NaN ->
  exists r,
    analysisResult asteroid w = (Normal r, w) /\
    willCollide r = false /\
    probability r = NaN /\
    timeToImpact r = None /\
    tsunamiRisk r = Some false.
Proof.
  intros Hc Hm.
  pose proof (analysisResult_normal asteroid approach w Hc) as Hr.
  cbv zeta in Hr. rewrite Hm in Hr. rewrite distanceBand_NaN in Hr.
  rewrite preClampProbability_NaN in Hr. cbn [fst snd timeToImpactOf] in Hr.
  eexists. split; [exact Hr |].
  cbn [willCollide probability timeToImpact tsunamiRisk].
  repeat split. unfold tsunamiRiskOf. rewrite andb_false_r. reflexivity.
Qed.

Lemma parseFloat_unknown : parseFloat "unknown" = NaN.
Proof. vm_compute. reflexivity. Qed.

Lemma unparseable_distance_yields_NaN_probability_witness :
  exists r,
    analysisResult
      (sampleAsteroid [sampleApproach "unknown" "20"] 1 1 true)
      (constWorld 1700000000000 0.5)
      = (Normal r, constWorld 1700000000000 0.5) /\
    willCollide r = false /\
    probability r = NaN /\
    timeToImpact r = None /\
    tsunamiRisk r = Some false.
Proof.
  apply (unparseable_distance_yields_NaN_probability
           (sampleAsteroid [sampleApproach "unknown" "20"] 1 1 true)
           (sampleApproach "unknown" "20")).
  - reflexivity.
  - exact parseFloat_unknown.
Defined.

Lemma pow_NaN_base (y : R) : y <> 0 -> Math.pow NaN (Fin y) = NaN.
Proof. intros H. unfold Math.pow. rewrite Reqb_false by assumption. reflexivity. Qed.

Lemma kineticEnergyOf_NaN_velocity (m : number) : kineticEnergyOf m NaN = NaN.
Proof.
  unfold kineticEnergyOf. cbn [mul]. rewrite pow_NaN_base by lra.
  apply mul_NaN_r.
Qed.

Lemma craterSizeOf_NaN : craterSizeOf NaN = NaN.
Proof.
  unfold craterSizeOf. cbn [div]. rewrite pow_NaN_base by lra. reflexivity.
Qed.

(** X4: When the velocity of the first record does not parse, the function
    still returns a record: its impact velocity, kinetic energy and crater
    size are NaN, whatever the diameter, while the collision flag and the
    probability are those the miss distance alone determines. *)
Theorem unparseable_velocity_yields_NaN_energy (asteroid : Asteroid)
    (approach : CloseApproach) (w : World) :
  closestApproach asteroid = Some approach ->
  velocity approach = NaN ->
  exists r w',
    analysisResult asteroid w = (Normal r, w') /\
    impactVelocity r = Some NaN /\
    kineticEnergy r = Some NaN /\
    craterSize r = Some NaN /\
    willCollide r = snd (distanceBand (missDistance approach)) /\
    probability r =
      Math.min
        (preClampProbability (is_potentially_hazardous_asteroid asteroid)
           (missDistance approach))
        (Fin 0.95).
Proof.
  intros Hc Hv.
  pose proof (analysisResult_normal asteroid approach w Hc) as Hr.
  cbv zeta in Hr. rewrite Hv in Hr.
  rewrite kineticEnergyOf_NaN_velocity, craterSizeOf_NaN in Hr.
  eexists. eexists. split; [exact Hr |]. repeat split.
Qed.

Lemma unparseable_velocity_yields_NaN_energy_witness :
  exists r w',
    analysisResult
      (sampleAsteroid [sampleApproach "5000" "fast"] 1 1 false)
      (constWorld 1700000000000 0.5) = (Normal r, w') /\
    impactVelocity r = Some NaN /\
    kineticEnergy r = Some NaN /\
    craterSize r = Some NaN /\
    willCollide r =
      snd (distanceBand (missDistance (sampleApproach "5000" "fast"))) /\
    probability r =
      Math.min
        (preClampProbability false
           (missDistance (sampleApproach "5000" "fast")))
        (Fin 0.95).
Proof.
  apply (unparseable_velocity_yields_NaN_energy
           (sampleAsteroid [sampleApproach "5000" "fast"] 1 1 false)
           (sampleApproach "5000" "fast")).
  - reflexivity.
  - vm_compute. reflexivity.
Defined.

(** ** The clock and the random source *)

Lemma year_offset (u : R) :
  (Fin u * Fin 365 * Fin 24 * Fin 60 * Fin 60 * Fin 1000)%js
  = Fin (u * 365 * 24 * 60 * 60 * 1000).
Proof. reflexivity. Qed.

(** X5: With a random source that returns numbers in [0, 1): the result has a
    [timeToImpact] exactly when [willCollide] is true.  It is then the
    clock reading plus an offset in [0, 31536000000) milliseconds (one year
    of 365 days), and the call has read the clock once and drawn one random
    number.  When [willCollide] is false, the world is left as it was. *)
Theorem timeToImpact_only_on_collision (asteroid : Asteroid)
    (approach : CloseApproach) (w : World) :
  closestApproach asteroid = Some approach ->
  random_source_ok w ->
  exists r w',
    analysisResult asteroid w = (Normal r, w') /\
    (willCollide r = true ->
     exists offset,
       timeToImpact r = Some (Fin (clock w (clock_reads w) + offset)) /\
       0 <= offset < 31536000000 /\
       clock_reads w' = S (clock_reads w) /\
       random_draws w' = S (random_draws w)) /\
    (willCollide r = false -> timeToImpact r = None /\ w' = w).
Proof.
  intros Hc Hs.
  pose proof (analysisResult_normal asteroid approach w Hc) as Hr.
  cbv zeta in Hr. eexists. eexists. split; [exact Hr |].
  cbn [willCollide timeToImpact].
  destruct (snd (distanceBand (missDistance approach))).
  - split; [intros _ | discriminate].
    unfold timeToImpactOf, Date_now, Math_random.
    cbn [fst snd clock entropy clock_reads random_draws].
    rewrite year_offset. cbn [add].
    eexists. split; [reflexivity |].
    pose proof (Hs (random_draws w)) as Hu. repeat split; lra.
  - split; [discriminate | intros _]. split; reflexivity.
Qed.

Lemma constWorld_random_source_ok (t u : R) :
  0 <= u < 1 -> random_source_ok (constWorld t u).
Proof. intros H k. exact H. Qed.

Lemma timeToImpact_only_on_collision_witness :
  exists r w',
    analysisResult
      (sampleAsteroid [sampleApproach "5000" "20"] 1 1 false)
      (constWorld 1700000000000 0.5) = (Normal r, w') /\
    (willCollide r = true ->
     exists offset,
       timeToImpact r = Some (Fin (1700000000000 + offset)) /\
       0 <= offset < 31536000000 /\
       clock_reads w' = 1%nat /\
       random_draws w' = 1%nat) /\
    (willCollide r = false ->
     timeToImpact r = None /\ w' = constWorld 1700000000000 0.5).
Proof.
  apply (timeToImpact_only_on_collision
           (sampleAsteroid [sampleApproach "5000" "20"] 1 1 false)
           (sampleApproach "5000" "20")
           (constWorld 1700000000000 0.5)).
  - reflexivity.
  - intros k. cbn. lra.
Defined.

(** ** Mass, kinetic energy and crater size *)

Lemma Int_part_IZR (z : Z) : Int_part (IZR z) = z.
Proof. symmetry. apply Int_part_spec. lra. Qed.

Lemma pow_Fin_2 (x : R) : Math.pow (Fin x) (Fin 2) = Fin (x ^ 2).
Proof.
  unfold Math.pow. rewrite (Reqb_false 2 0) by lra.
  destruct (Req_dec x 0) as [Hx | Hx].
  - rewrite (Reqb_true x 0 Hx), Rltb_true by lra. subst x. f_equal. ring.
  - rewrite (Reqb_false x 0 Hx).
    assert (H2 : INR 2 = 2) by (simpl; lra).
    destruct (Rlt_dec 0 x) as [Hp | Hp].
    + rewrite Rltb_true by assumption. f_equal.
      rewrite <- H2. apply Rpower_pow. assumption.
    + rewrite Rltb_false by lra.
      unfold Math.is_integer. rewrite Int_part_IZR.
      rewrite Reqb_true by reflexivity. cbn [Z.odd]. f_equal.
      rewrite <- H2. rewrite Rpower_pow by lra. ring.
Qed.

Lemma pow_Fin_3 (x : R) : Math.pow (Fin x) (Fin 3) = Fin (x ^ 3).
Proof.
  unfold Math.pow. rewrite (Reqb_false 3 0) by lra.
  destruct (Req_dec x 0) as [Hx | Hx].
  - rewrite (Reqb_true x 0 Hx), Rltb_true by lra. subst x. f_equal. ring.
  - rewrite (Reqb_false x 0 Hx).
    assert (H3 : INR 3 = 3) by (simpl; lra).
    destruct (Rlt_dec 0 x) as [Hp | Hp].
    + rewrite Rltb_true by assumption. f_equal.
      rewrite <- H3. apply Rpower_pow. assumption.
    + rewrite Rltb_false by lra.
      unfold Math.is_integer. rewrite Int_part_IZR.
      rewrite Reqb_true by reflexivity. cbn [Z.odd]. f_equal.
      rewrite <- H3. rewrite Rpower_pow by lra. ring.
Qed.

Lemma mass_Fin (D : R) :
  mass (Fin D) = Fin (4 / 3 * Rtrigo1.PI * (D / 2) ^ 3 * 2500).
Proof.
  unfold mass, Math.PI. rewrite !div_Fin by lra. rewrite pow_Fin_3.
  reflexivity.
Qed.

Lemma kineticEnergyOf_Fin (m v : R) :
  kineticEnergyOf (Fin m) (Fin v) = Fin (0.5 * m * (v * 1000) ^ 2).
Proof.
  unfold kineticEnergyOf. cbn [mul]. rewrite pow_Fin_2. reflexivity.
Qed.

Lemma craterSizeOf_zero : craterSizeOf (Fin 0) = Fin 0.
Proof.
  unfold craterSizeOf. rewrite div_Fin by lra. unfold Math.pow.
  rewrite (Reqb_false 0.25 0) by lra.
  rewrite (Reqb_true (0 / 1e15) 0) by lra.
  rewrite Rltb_true by lra. cbn [mul]. f_equal. lra.
Qed.

Lemma craterSizeOf_pos (E : R) :
  0 < E ->
  craterSizeOf (Fin E) = Fin (Rpower (E / 1e15) 0.25 * 1000).
Proof.
  intros HE. unfold craterSizeOf. rewrite div_Fin by lra. unfold Math.pow.
  rewrite (Reqb_false 0.25 0) by lra.
  assert (Hq : 0 < E / 1e15) by lra.
  rewrite (Reqb_false (E / 1e15) 0) by lra.
  rewrite Rltb_true by assumption. reflexivity.
Qed.

Lemma Rpower_quarter_pow4 (x : R) : 0 < x -> Rpower x 0.25 ^ 4 = x.
Proof.
  intros Hx. assert (H4 : INR 4 = 4) by (simpl; lra).
  rewrite <- Rpower_pow by apply exp_pos.
  rewrite Rpower_mult, H4.
  replace (0.25 * 4) with 1 by lra. apply Rpower_1. assumption.
Qed.

(** X6: The energy as the code computes it, for magnitudes at which
    binary64 neither overflows nor underflows: the average diameter enters
    the sphere volume as it is given (halved, cubed), with no change of
    unit, and only the velocity is multiplied by 1000.  For an average
    diameter [D >= 0] and a velocity [v] that are 0 or between 1e-50 and
    1e50 in absolute value, the kinetic energy is the real
    [625000000/3 * pi * D^3 * v^2], between 0 and 1e260, and the crater
    size is the real [c >= 0] with [c^4 * 1000 = E]. *)
Theorem energy_and_crater_closed_form (asteroid : Asteroid)
    (approach : CloseApproach) (D v : R) (w : World) :
  closestApproach asteroid = Some approach ->
  avgDiameter asteroid = Fin D ->
  velocity approach = Fin v ->
  0 <= D ->
  moderate D ->
  moderate v ->
  exists r w' E c,
    analysisResult asteroid w = (Normal r, w') /\
    impactVelocity r = Some (Fin v) /\
    kineticEnergy r = Some (Fin E) /\
    craterSize r = Some (Fin c) /\
    E = 625000000 / 3 * Rtrigo1.PI * D ^ 3 * v ^ 2 /\
    0 <= E <= 1e260 /\ 0 <= c /\ c ^ 4 * 1000 = E.
Proof.
  intros Hc HD Hv HD0 HmD Hmv.
  assert (HDmax : D <= 1e50).
  { destruct HmD as [-> | [_ HmD]]; [lra |].
    rewrite Rabs_pos_eq in HmD by assumption. assumption. }
  assert (Hvmax : Rabs v <= 1e50).
  { destruct Hmv as [-> | [_ Hmv]]; [rewrite Rabs_R0; lra | assumption]. }
  pose proof (analysisResult_normal asteroid approach w Hc) as Hr.
  cbv zeta in Hr. rewrite HD, Hv in Hr.
  rewrite mass_Fin, kineticEnergyOf_Fin in Hr.
  set (E := 0.5 * (4 / 3 * Rtrigo1.PI * (D / 2) ^ 3 * 2500)
            * (v * 1000) ^ 2) in *.
  assert (HE : E = 625000000 / 3 * Rtrigo1.PI * D ^ 3 * v ^ 2)
    by (unfold E; replace 0.5 with (/ 2) by lra; field).
  assert (HE0 : 0 <= E).
  { rewrite HE. pose proof PI_RGT_0 as Hpi.
    assert (0 <= D ^ 3) by (apply pow_le; assumption).
    assert (0 <= v ^ 2) by (apply pow2_ge_0).
    apply Rmult_le_pos; [| assumption].
    apply Rmult_le_pos; [| assumption]. lra. }
  assert (HEmax : E <= 1e260).
  { rewrite HE.
    assert (Hpi : 0 < Rtrigo1.PI <= 4)
      by (split; [apply PI_RGT_0 | apply PI_4]).
    assert (H3 : 0 <= D ^ 3 <= 1e150).
    { split; [apply pow_le; lra |].
      replace 1e150 with (1e50 ^ 3) by lra. apply pow_incr. lra. }
    assert (H2 : 0 <= v ^ 2 <= 1e100).
    { split; [apply pow2_ge_0 |].
      rewrite <- (pow2_abs v). replace 1e100 with (1e50 ^ 2) by lra.
      apply pow_incr. split; [apply Rabs_pos | assumption]. }
    assert (Ha : 625000000 / 3 * Rtrigo1.PI <= 1e10) by lra.
    assert (Hb : 625000000 / 3 * Rtrigo1.PI * D ^ 3 <= 1e10 * 1e150)
      by (apply Rmult_le_compat; lra).
    replace 1e260 with (1e10 * 1e150 * 1e100) by lra.
    apply Rmult_le_compat; try lra.
    apply Rmult_le_pos; lra. }
  destruct (Req_dec E 0) as [Hz | Hz].
  - clearbody E.
    assert (Hcr : craterSizeOf (Fin E) = Fin 0)
      by (rewrite Hz; apply craterSizeOf_zero).
    rewrite Hcr in Hr.
    eexists. eexists. exists E, 0. split; [exact Hr |].
    cbn [impactVelocity kineticEnergy craterSize].
    repeat split; try reflexivity; try assumption; try lra.
  - clearbody E. rewrite craterSizeOf_pos in Hr by lra.
    eexists. eexists. exists E, (Rpower (E / 1e15) 0.25 * 1000).
    split; [exact Hr |].
    cbn [impactVelocity kineticEnergy craterSize].
    repeat split; try reflexivity; try assumption.
    + pose proof (exp_pos (0.25 * ln (E / 1e15))) as Hp.
      unfold Rpower. lra.
    + rewrite Rpow_mult_distr, Rpower_quarter_pow4 by lra. lra.
Qed.

Lemma energy_and_crater_closed_form_witness :
  exists r w' E c,
    analysisResult
      (sampleAsteroid [sampleApproach "5000" "20"] 1 1 false)
      (constWorld 1700000000000 0.5) = (Normal r, w') /\
    impactVelocity r = Some (Fin 20) /\
    kineticEnergy r = Some (Fin E) /\
    craterSize r = Some (Fin c) /\
    E = 625000000 / 3 * Rtrigo1.PI * 1 ^ 3 * 20 ^ 2 /\
    0 <= E <= 1e260 /\ 0 <= c /\ c ^ 4 * 1000 = E.
Proof.
  apply (energy_and_crater_closed_form
           (sampleAsteroid [sampleApproach "5000" "20"] 1 1 false)
           (sampleApproach "5000" "20") 1 20).
  - reflexivity.
  - unfold avgDiameter, sampleAsteroid.
    cbn [diameter estimated_diameter_min estimated_diameter_max add].
    rewrite div_Fin by lra. f_equal. lra.
  - exact parseFloat_20.
  - lra.
  - right. rewrite Rabs_pos_eq by lra. lra.
  - right. rewrite Rabs_pos_eq by lra. lra.
Defined.

(** ** Shape of the probability as a function of the miss distance *)

Lemma band_value (d : R) :
  (d < 2 * 6371 /\
   fst (distanceBand (Fin d)) = Fin (1 - d / (10 * 6371))) \/
  (2 * 6371 <= d < 10 * 6371 /\
   fst (distanceBand (Fin d)) = Fin (Rmax 0.001 (0.1 - d / (100 * 6371)))) \/
  (10 * 6371 <= d /\ fst (distanceBand (Fin d)) = Fin 0.0001).
Proof.
  destruct (Rlt_dec d (2 * 6371)) as [Hn | Hn].
  - left. split; [assumption |]. rewrite distanceBand_near by assumption.
    cbn [fst]. f_equal. unfold Rmax. destruct (Rle_dec _ _); lra.
  - destruct (Rlt_dec d (10 * 6371)) as [Hm | Hm].
    + right. left. split; [lra |]. rewrite distanceBand_mid by lra.
      reflexivity.
    + right. right. split; [lra |]. rewrite distanceBand_far by lra.
      cbn [fst]. f_equal. unfold Rmax. destruct (Rle_dec _ _); lra.
Qed.

Lemma capped_Fin (h : bool) (p : R) :
  Math.min (hazardAdjust h (Fin p)) (Fin 0.95)
  = Fin (Rmin (if h then p * 2 else p) 0.95).
Proof. rewrite hazardAdjust_Fin. apply min_Fin. Qed.

(** X7: The floors of the first and the last band are dead ends of a
    different kind.  Below two Earth radii the linear term stays above 0.8,
    so the floor 0.1 is never the value, and a hazardous asteroid gets
    exactly 0.95.  From ten Earth radii on the linear term is at most 0, so
    the probability is the constant 0.0001, or 0.0002 for a hazardous
    asteroid, whatever the distance. *)
Theorem outer_bands_closed_form (asteroid : Asteroid)
    (approach : CloseApproach) (d : R) (w : World) :
  closestApproach asteroid = Some approach ->
  missDistance approach = Fin d ->
  exists r w',
    analysisResult asteroid w = (Normal r, w') /\
    (d < 2 * 6371 ->
     probability r =
       Fin (if is_potentially_hazardous_asteroid asteroid then 0.95
            else Rmin (1 - d / (10 * 6371)) 0.95)) /\
    (10 * 6371 <= d ->
     probability r =
       Fin (if is_potentially_hazardous_asteroid asteroid then 0.0002
            else 0.0001)).
Proof.
  intros Hc Hm.
  pose proof (analysisResult_normal asteroid approach w Hc) as Hr.
  cbv zeta in Hr. rewrite Hm in Hr.
  eexists. eexists. split; [exact Hr |].
  cbn [probability]. unfold preClampProbability.
  destruct (band_value d) as [[Hd Hp] | [[Hd Hp] | [Hd Hp]]];
    rewrite Hp, capped_Fin;
    (split; intros Hb; [try lra | try lra]); f_equal;
    destruct (is_potentially_hazardous_asteroid asteroid);
    unfold Rmin; try destruct (Rle_dec _ _); try lra.
Qed.

Lemma parseFloat_70000 : parseFloat "70000" = Fin 70000.
Proof. vm_compute. reflexivity. Qed.

Lemma outer_bands_closed_form_witness :
  exists r w',
    analysisResult
      (sampleAsteroid [sampleApproach "70000" "20"] 1 1 true)
      (constWorld 1700000000000 0.5) = (Normal r, w') /\
    (70000 < 2 * 6371 ->
     probability r = Fin (if true then 0.95
                          else Rmin (1 - 70000 / (10 * 6371)) 0.95)) /\
    (10 * 6371 <= 70000 ->
     probability r = Fin (if true then 0.0002 else 0.0001)).
Proof.
  apply (outer_bands_closed_form
           (sampleAsteroid [sampleApproach "70000" "20"] 1 1 true)
           (sampleApproach "70000" "20") 70000).
  - reflexivity.
  - exact parseFloat_70000.
Defined.

Lemma capped_probability_antitone (h : bool) (d1 d2 : R) :
  d1 <= d2 ->
  exists p1 p2,
    Math.min (preClampProbability h (Fin d1)) (Fin 0.95) = Fin p1 /\
    Math.min (preClampProbability h (Fin d2)) (Fin 0.95) = Fin p2 /\
    0.0001 <= p2 <= p1 /\ p1 <= 0.95.
Proof.
  intros Hle. unfold preClampProbability.
  destruct (band_value d1) as [[H1 E1] | [[H1 E1] | [H1 E1]]];
  destruct (band_value d2) as [[H2 E2] | [[H2 E2] | [H2 E2]]];
    try lra; rewrite E1, E2, !capped_Fin;
    eexists; eexists; (split; [reflexivity |]); (split; [reflexivity |]);
    destruct h; unfold Rmin, Rmax;
    repeat (destruct (Rle_dec _ _)); lra.
Qed.

(** X8: A larger miss distance never gives a larger probability, across the
    band boundaries as well as inside a band: for two inputs with the same
    hazard flag and finite miss distances [d1 <= d2], the probabilities
    are reals with [0.0001 <= p2 <= p1 <= 0.95].  In particular the
    probability of a finite miss distance is never 0. *)
Theorem probability_antitone_in_distance (a1 a2 : Asteroid)
    (ap1 ap2 : CloseApproach) (d1 d2 : R) (w1 w2 : World) :
  closestApproach a1 = Some ap1 ->
  closestApproach a2 = Some ap2 ->
  missDistance ap1 = Fin d1 ->
  missDistance ap2 = Fin d2 ->
  is_potentially_hazardous_asteroid a1 =
    is_potentially_hazardous_asteroid a2 ->
  d1 <= d2 ->
  exists r1 w1' r2 w2' p1 p2,
    analysisResult a1 w1 = (Normal r1, w1') /\
    analysisResult a2 w2 = (Normal r2, w2') /\
    probability r1 = Fin p1 /\
    probability r2 = Fin p2 /\
    0.0001 <= p2 <= p1 /\ p1 <= 0.95.
Proof.
  intros Hc1 Hc2 Hm1 Hm2 Hh Hle.
  pose proof (analysisResult_normal a1 ap1 w1 Hc1) as Hr1.
  pose proof (analysisResult_normal a2 ap2 w2 Hc2) as Hr2.
  cbv zeta in Hr1, Hr2. rewrite Hm1 in Hr1. rewrite Hm2 in Hr2.
  destruct (capped_probability_antitone
              (is_potentially_hazardous_asteroid a1) d1 d2 Hle)
    as [p1 [p2 [Hp1 [Hp2 Hrange]]]].
  rewrite <- Hh in Hr2.
  eexists. eexists. eexists. eexists. exists p1, p2.
  split; [exact Hr1 |]. split; [exact Hr2 |].
  cbn [probability]. repeat split; try assumption; apply Hrange.
Qed.

Lemma probability_antitone_in_distance_witness :
  exists r1 w1' r2 w2' p1 p2,
    analysisResult
      (sampleAsteroid [sampleApproach "5000" "20"] 1 1 false)
      (constWorld 1700000000000 0.5) = (Normal r1, w1') /\
    analysisResult
      (sampleAsteroid [sampleApproach "70000" "20"] 1 1 false)
      (constWorld 1700000000000 0.5) = (Normal r2, w2') /\
    probability r1 = Fin p1 /\
    probability r2 = Fin p2 /\
    0.0001 <= p2 <= p1 /\ p1 <= 0.95.
Proof.
  apply (probability_antitone_in_distance
           (sampleAsteroid [sampleApproach "5000" "20"] 1 1 false)
           (sampleAsteroid [sampleApproach "70000" "20"] 1 1 false)
           (sampleApproach "5000" "20") (sampleApproach "70000" "20")
           5000 70000).
  - reflexivity.
  - reflexivity.
  - exact parseFloat_5000.
  - exact parseFloat_70000.
  - reflexivity.
  - lra.
Defined.

(** ** What the hazard flag, the diameter and the world can change *)

(** X9: The hazard flag touches the probability only, and never lowers it: the
    results for the flag set and unset agree on every other field and on
    the world after the call, and for a finite miss distance the two
    probabilities are reals with [pf <= pt <= 2 * pf]. *)
Theorem hazard_flag_only_raises_probability (asteroid : Asteroid)
    (approach : CloseApproach) (d : R) (w : World) :
  closestApproach asteroid = Some approach ->
  missDistance approach = Fin d ->
  exists rt rf w' pt pf,
    analysisResult (withHazard true asteroid) w = (Normal rt, w') /\
    analysisResult (withHazard false asteroid) w = (Normal rf, w') /\
    probability rt = Fin pt /\ probability rf = Fin pf /\
    pf <= pt <= 2 * pf /\
    willCollide rt = willCollide rf /\
    timeToImpact rt = timeToImpact rf /\
    impactVelocity rt = impactVelocity rf /\
    kineticEnergy rt = kineticEnergy rf /\
    tsunamiRisk rt = tsunamiRisk rf /\
    craterSize rt = craterSize rf.
Proof.
  intros Hc Hm.
  assert (Ht : closestApproach (withHazard true asteroid) = Some approach)
    by exact Hc.
  assert (Hf : closestApproach (withHazard false asteroid) = Some approach)
    by exact Hc.
  pose proof (analysisResult_normal _ approach w Ht) as Hrt.
  pose proof (analysisResult_normal _ approach w Hf) as Hrf.
  cbv zeta in Hrt, Hrf. rewrite Hm in Hrt, Hrf.
  cbn [withHazard is_potentially_hazardous_asteroid] in Hrt, Hrf.
  unfold preClampProbability in Hrt, Hrf.
  assert (Hb : exists p, fst (distanceBand (Fin d)) = Fin p /\ 0 < p).
  { destruct (band_value d) as [[Hd Hp] | [[Hd Hp] | [Hd Hp]]];
      eexists; (split; [exact Hp |]); unfold Rmax;
      try destruct (Rle_dec _ _); lra. }
  destruct Hb as [p [Hp Hpos]]. rewrite Hp in Hrt, Hrf.
  rewrite capped_Fin in Hrt, Hrf.
  eexists. eexists. eexists. eexists. eexists.
  split; [exact Hrt |]. split; [exact Hrf |].
  cbn [probability willCollide timeToImpact impactVelocity kineticEnergy
       tsunamiRisk craterSize].
  repeat split; unfold Rmin; repeat (destruct (Rle_dec _ _)); lra.
Qed.

Lemma hazard_flag_only_raises_probability_witness :
  exists rt rf w' pt pf,
    analysisResult
      (withHazard true
         (sampleAsteroid [sampleApproach "5000" "20"] 1 1 false))
      (constWorld 1700000000000 0.5) = (Normal rt, w') /\
    analysisResult
      (withHazard false
         (sampleAsteroid [sampleApproach "5000" "20"] 1 1 false))
      (constWorld 1700000000000 0.5) = (Normal rf, w') /\
    probability rt = Fin pt /\ probability rf = Fin pf /\
    pf <= pt <= 2 * pf /\
    willCollide rt = willCollide rf /\
    timeToImpact rt = timeToImpact rf /\
    impactVelocity rt = impactVelocity rf /\
    kineticEnergy rt = kineticEnergy rf /\
    tsunamiRisk rt = tsunamiRisk rf /\
    craterSize rt = craterSize rf.
Proof.
  apply (hazard_flag_only_raises_probability
           (sampleAsteroid [sampleApproach "5000" "20"] 1 1 false)
           (sampleApproach "5000" "20") 5000).
  - reflexivity.
  - exact parseFloat_5000.
Defined.

(** X10: The tsunami flag is raised exactly when the average diameter compares
    above 100 and the parsed miss distance compares below 1.5 * 6371; a
    result never carries [tsunamiRisk] true with [willCollide] false, and a
    NaN diameter never raises it. *)
Theorem tsunamiRisk_requires_collision (asteroid : Asteroid)
    (approach : CloseApproach) (w : World) :
  closestApproach asteroid = Some approach ->
  exists r w',
    analysisResult asteroid w = (Normal r, w') /\
    (tsunamiRisk r = Some true <->
     (avgDiameter asteroid >? Fin 100)%js = true /\
     (missDistance approach <? Fin (1.5 * 6371))%js = true) /\
    (tsunamiRisk r = Some true -> willCollide r = true) /\
    (avgDiameter asteroid = NaN -> tsunamiRisk r = Some false).
Proof.
  intros Hc.
  pose proof (analysisResult_normal asteroid approach w Hc) as Hr.
  cbv zeta in Hr. eexists. eexists. split; [exact Hr |].
  cbn [tsunamiRisk willCollide]. unfold tsunamiRiskOf.
  rewrite distanceBand_willCollide.
  split; [split |]; [| | split].
  - intros H. injection H as H'. apply andb_true_iff in H'. exact H'.
  - intros [H1 H2]. rewrite H1, H2. reflexivity.
  - intros H. injection H as H'. apply andb_true_iff in H'. apply H'.
  - intros H. rewrite H. reflexivity.
Qed.

Lemma tsunamiRisk_requires_collision_witness :
  exists r w',
    analysisResult
      (sampleAsteroid [sampleApproach "5000" "20"] 150 250 false)
      (constWorld 1700000000000 0.5) = (Normal r, w') /\
    (tsunamiRisk r = Some true <->
     (avgDiameter
        (sampleAsteroid [sampleApproach "5000" "20"] 150 250 false)
      >? Fin 100)%js = true /\
     (missDistance (sampleApproach "5000" "20") <? Fin (1.5 * 6371))%js
       = true) /\
    (tsunamiRisk r = Some true -> willCollide r = true) /\
    (avgDiameter
       (sampleAsteroid [sampleApproach "5000" "20"] 150 250 false) = NaN ->
     tsunamiRisk r = Some false).
Proof.
  apply (tsunamiRisk_requires_collision
           (sampleAsteroid [sampleApproach "5000" "20"] 150 250 false)
           (sampleApproach "5000" "20")).
  reflexivity.
Defined.

Lemma timeToImpactOf_pinned (b : bool) (w : World) :
  pinned w ->
  fst (timeToImpactOf b (snd (timeToImpactOf b w)))
  = fst (timeToImpactOf b w).
Proof.
  intros [Hclock Hrand]. destruct b; [| reflexivity].
  unfold timeToImpactOf, Date_now, Math_random.
  cbn [fst snd clock entropy clock_reads random_draws].
  rewrite (Hclock (S (clock_reads w)) (clock_reads w)).
  rewrite (Hrand (S (random_draws w)) (random_draws w)). reflexivity.
Qed.

(** X11: Two analyses of the same asteroid, the second starting from the world
    the first one leaves: both return a record, and the records agree on
    every field but [timeToImpact]; with a pinned clock and a pinned random
    source they agree on [timeToImpact] too, so the records are equal. *)
Theorem successive_runs_agree (asteroid : Asteroid)
    (approach : CloseApproach) (w : World) :
  closestApproach asteroid = Some approach ->
  exists r1 w1 r2 w2,
    analysisResult asteroid w = (Normal r1, w1) /\
    analysisResult asteroid w1 = (Normal r2, w2) /\
    willCollide r1 = willCollide r2 /\
    probability r1 = probability r2 /\
    impactVelocity r1 = impactVelocity r2 /\
    kineticEnergy r1 = kineticEnergy r2 /\
    tsunamiRisk r1 = tsunamiRisk r2 /\
    craterSize r1 = craterSize r2 /\
    (pinned w -> r1 = r2).
Proof.
  intros Hc.
  pose proof (analysisResult_normal asteroid approach w Hc) as Hr1.
  cbv zeta in Hr1.
  eexists. eexists. eexists. eexists.
  split; [exact Hr1 |].
  split; [apply (analysisResult_normal asteroid approach _ Hc) |].
  cbn [willCollide probability impactVelocity kineticEnergy tsunamiRisk
       craterSize].
  repeat split.
  intros Hp. rewrite timeToImpactOf_pinned by assumption. reflexivity.
Qed.

Lemma constWorld_pinned (t u : R) : pinned (constWorld t u).
Proof. split; intros j k; reflexivity. Qed.

Lemma successive_runs_agree_witness :
  exists r1 w1 r2 w2,
    analysisResult
      (sampleAsteroid [sampleApproach "5000" "20"] 1 1 false)
      (constWorld 1700000000000 0.5) = (Normal r1, w1) /\
    analysisResult
      (sampleAsteroid [sampleApproach "5000" "20"] 1 1 false) w1
      = (Normal r2, w2) /\
    willCollide r1 = willCollide r2 /\
    probability r1 = probability r2 /\
    impactVelocity r1 = impactVelocity r2 /\
    kineticEnergy r1 = kineticEnergy r2 /\
    tsunamiRisk r1 = tsunamiRisk r2 /\
    craterSize r1 = craterSize r2 /\
    (pinned (constWorld 1700000000000 0.5) -> r1 = r2).
Proof.
  apply (successive_runs_agree
           (sampleAsteroid [sampleApproach "5000" "20"] 1 1 false)
           (sampleApproach "5000" "20")).
  reflexivity.
Defined.

(** * What the analysis card displays *)

Section DisplayProperties.

Variable toFixed : number -> nat -> string.

Open Scope string_scope.

Lemma gt_Fin (a b : R) : (Fin a >? Fin b)%js = Rltb b a.
Proof. reflexivity. Qed.

(** X12: [formatEnergy] on a finite energy [e] prints [toFixed(m, 1)] followed
    by a unit, where [m] is [e] divided by the size of the unit.  The unit
    is chosen so that the number printed is above 1 for EJ, in (1, 1000]
    for PJ and TJ, and at most 1000 for GJ, the unit of every energy up to
    1e12, negative ones included. *)
Theorem formatEnergy_mantissa_range (e : R) :
  exists m unit,
    formatEnergy toFixed (Fin e) = toFixed (Fin m) 1 ++ unit /\
    ((unit = " EJ" /\ e = m * 1e18 /\ 1 < m) \/
     (unit = " PJ" /\ e = m * 1e15 /\ 1 < m <= 1000) \/
     (unit = " TJ" /\ e = m * 1e12 /\ 1 < m <= 1000) \/
     (unit = " GJ" /\ e = m * 1e9 /\ m <= 1000)).
Proof.
  unfold formatEnergy. rewrite !gt_Fin, !div_Fin by lra.
  destruct (Rlt_dec 1e18 e) as [H18 | H18].
  { rewrite Rltb_true by assumption. eexists. eexists.
    split; [reflexivity |]. left. repeat split; lra. }
  rewrite (Rltb_false 1e18 e) by lra.
  destruct (Rlt_dec 1e15 e) as [H15 | H15].
  { rewrite Rltb_true by assumption. eexists. eexists.
    split; [reflexivity |]. right; left. repeat split; lra. }
  rewrite (Rltb_false 1e15 e) by lra.
  destruct (Rlt_dec 1e12 e) as [H12 | H12].
  { rewrite Rltb_true by assumption. eexists. eexists.
    split; [reflexivity |]. right; right; left. repeat split; lra. }
  rewrite (Rltb_false 1e12 e) by lra.
  eexists. eexists. split; [reflexivity |].
  right; right; right. repeat split; lra.
Qed.

(** X13: The label, the colour and the unit of the energy shown are three
    separate conditionals; they always agree: EXTINCTION LEVEL goes with
    red and EJ, REGIONAL with yellow and PJ, LOCAL with green and TJ or
    GJ. *)
Theorem global_impact_label_colour_unit_agree
    (analysis : CollisionAnalysisType) :
  let E := js_or (kineticEnergy analysis) (Fin 0) in
  (globalImpactLabel analysis = "EXTINCTION LEVEL" /\
   globalImpactClass analysis = "text-red-400" /\
   kineticEnergyText toFixed analysis
     = toFixed (E / Fin 1e18)%js 1 ++ " EJ") \/
  (globalImpactLabel analysis = "REGIONAL" /\
   globalImpactClass analysis = "text-yellow-400" /\
   kineticEnergyText toFixed analysis
     = toFixed (E / Fin 1e15)%js 1 ++ " PJ") \/
  (globalImpactLabel analysis = "LOCAL" /\
   globalImpactClass analysis = "text-green-400" /\
   (kineticEnergyText toFixed analysis
      = toFixed (E / Fin 1e12)%js 1 ++ " TJ" \/
    kineticEnergyText toFixed analysis
      = toFixed (E / Fin 1e9)%js 1 ++ " GJ")).
Proof.
  intros E. unfold globalImpactLabel, globalImpactClass, kineticEnergyText,
    formatEnergy. fold E.
  destruct (E >? Fin 1e18)%js; [left; repeat split |].
  destruct (E >? Fin 1e15)%js; [right; left; repeat split |].
  right; right. split; [reflexivity |]. split; [reflexivity |].
  destruct (E >? Fin 1e12)%js; [left | right]; reflexivity.
Qed.

(** X14: An energy that is NaN, as after an unparseable velocity, or absent, is
    displayed as the energy 0: [toFixed(0, 1)] GJ, LOCAL, green. *)
Theorem missing_energy_displayed_as_zero (analysis : CollisionAnalysisType) :
  kineticEnergy analysis = Some NaN \/ kineticEnergy analysis = None ->
  kineticEnergyText toFixed analysis = toFixed (Fin 0) 1 ++ " GJ" /\
  globalImpactLabel analysis = "LOCAL" /\
  globalImpactClass analysis = "text-green-400".
Proof.
  intros H.
  assert (HE : js_or (kineticEnergy analysis) (Fin 0) = Fin 0)
    by (destruct H as [H | H]; rewrite H; reflexivity).
  unfold kineticEnergyText, globalImpactLabel, globalImpactClass,
    formatEnergy. rewrite HE, !gt_Fin, !Rltb_false by lra.
  rewrite div_Fin by lra. repeat split. do 3 f_equal. lra.
Qed.

End DisplayProperties.

Lemma missing_energy_displayed_as_zero_witness :
  let analysis :=
    {| willCollide := false; probability := Fin 0.0001;
       timeToImpact := None; impactVelocity := Some NaN;
       kineticEnergy := Some NaN; tsunamiRisk := Some false;
       craterSize := Some NaN |} in
  let toFixed := fun (_ : number) (_ : nat) => "0.0"%string in
  kineticEnergyText toFixed analysis
    = (toFixed (Fin 0) 1%nat ++ " GJ")%string /\
  globalImpactLabel analysis = "LOCAL"%string /\
  globalImpactClass analysis = "text-green-400"%string.
Proof.
  apply (missing_energy_displayed_as_zero
           (fun _ _ => "0.0"%string)
           {| willCollide := false; probability := Fin 0.0001;
              timeToImpact := None; impactVelocity := Some NaN;
              kineticEnergy := Some NaN; tsunamiRisk := Some false;
              craterSize := Some NaN |}).
  left. reflexivity.
Defined.

(** * [AsteroidSelector] *)

(** ** Choosing an asteroid by its id *)

(** X15: What [handleAsteroidSelect] hands over is an asteroid of the list that
    carries the requested id, the first one in list order; it hands over
    [null] exactly when no asteroid of the list has that id. *)
Theorem handleAsteroidSelect_sound (l : list Asteroid) (i : string) :
  (forall a,
     AsteroidSelector.handleAsteroidSelect l i = Some a ->
     exists before after,
       l = before ++ a :: after /\ id a = i /\
       forall b, In b before -> id b <> i) /\
  (AsteroidSelector.handleAsteroidSelect l i = None <->
   forall a, In a l -> id a <> i).
Proof.
  unfold AsteroidSelector.handleAsteroidSelect. induction l as [| x l IH].
  - split; [discriminate |]. split; [intros _ a [] | reflexivity].
  - cbn [find]. destruct (String.eqb (id x) i) eqn:Hx.
    + apply String.eqb_eq in Hx. split.
      * intros a Ha. injection Ha as <-. exists [], l.
        repeat split; [assumption | intros b []].
      * split; [discriminate |].
        intros H. exfalso. apply (H x); [left; reflexivity | assumption].
    + apply String.eqb_neq in Hx. destruct IH as [IH1 IH2]. split.
      * intros a Ha. destruct (IH1 a Ha) as [before [after [-> [Hi Hb]]]].
        exists (x :: before), after. repeat split; [assumption |].
        intros b [<- | Hin]; [assumption | apply Hb; assumption].
      * rewrite IH2. split.
        -- intros H a [<- | Hin]; [assumption | apply H; assumption].
        -- intros H a Hin. apply H. right. assumption.
Qed.

(** X16: Round trip: when the ids of the list are pairwise different, choosing
    the id of an asteroid of the list hands over that very asteroid. *)
Theorem handleAsteroidSelect_round_trip (l : list Asteroid) (a : Asteroid) :
  NoDup (map id l) ->
  In a l ->
  AsteroidSelector.handleAsteroidSelect l (id a) = Some a.
Proof.
  unfold AsteroidSelector.handleAsteroidSelect.
  induction l as [| x l IH]; intros Hnd Hin; [destruct Hin |].
  cbn [map] in Hnd. inversion Hnd as [| ? ? Hnotin Hnd']; subst.
  cbn [find]. destruct Hin as [<- | Hin].
  - rewrite String.eqb_refl. reflexivity.
  - destruct (String.eqb (id x) (id a)) eqn:Hx.
    + apply String.eqb_eq in Hx. exfalso. apply Hnotin. rewrite Hx.
      apply in_map. assumption.
    + apply IH; assumption.
Qed.

Lemma handleAsteroidSelect_round_trip_witness :
  AsteroidSelector.handleAsteroidSelect
    [withIdMagnitude "3542519" (Fin 20) (sampleAsteroid [] 1 1 false);
     withIdMagnitude "2000433" (Fin 10) (sampleAsteroid [] 2 3 true)]
    (id (withIdMagnitude "2000433" (Fin 10) (sampleAsteroid [] 2 3 true)))
  = Some (withIdMagnitude "2000433" (Fin 10) (sampleAsteroid [] 2 3 true)).
Proof.
  apply (handleAsteroidSelect_round_trip
           [withIdMagnitude "3542519" (Fin 20) (sampleAsteroid [] 1 1 false);
            withIdMagnitude "2000433" (Fin 10) (sampleAsteroid [] 2 3 true)]
           (withIdMagnitude "2000433" (Fin 10) (sampleAsteroid [] 2 3 true))).
  - repeat constructor; cbn; intros H; repeat destruct H as [H | H];
      try discriminate H; assumption.
  - right. left. reflexivity.
Defined.

(** ** Sorting and truncating the feed *)

Section SortProperties.

Import AsteroidSelector.

Lemma sortInsert_perm {A : Type} (c : A -> A -> number) (x : A)
    (l : list A) :
  Permutation (sortInsert c x l) (x :: l).
Proof.
  induction l as [| y l IH]; cbn [sortInsert]; [reflexivity |].
  destruct (c x y >? Fin 0)%js; [| reflexivity].
  rewrite IH. apply perm_swap.
Qed.

Lemma Array_sort_perm {A : Type} (c : A -> A -> number) (l : list A) :
  Permutation (Array_sort c l) l.
Proof.
  induction l as [| x l IH]; [reflexivity |].
  unfold Array_sort in *. cbn [fold_right].
  rewrite sortInsert_perm. apply perm_skip. exact IH.
Qed.

Lemma byMagnitudeDesc_finite (a b : Asteroid) :
  finiteMagnitude a -> finiteMagnitude b ->
  (byMagnitudeDesc a b >? Fin 0)%js = Rltb (magnitudeR a) (magnitudeR b).
Proof.
  unfold finiteMagnitude, byMagnitudeDesc, magnitudeR.
  destruct (absolute_magnitude_h a) as [| | ha |]; try discriminate.
  destruct (absolute_magnitude_h b) as [| | hb |]; try discriminate.
  intros _ _. cbn [sub add neg gt lt]. unfold Rltb.
  destruct (Rlt_dec 0 (hb + - ha)), (Rlt_dec ha hb); try reflexivity; lra.
Qed.

Lemma sortInsert_sorted (x : Asteroid) (l : list Asteroid) :
  finiteMagnitude x -> Forall finiteMagnitude l ->
  StronglySorted descending l ->
  StronglySorted descending (sortInsert byMagnitudeDesc x l).
Proof.
  intros Hx Hl Hs. induction l as [| y l IH]; cbn [sortInsert].
  - repeat constructor.
  - inversion Hl as [| ? ? Hy Hl']; subst.
    inversion Hs as [| ? ? Hs' Hall]; subst.
    rewrite byMagnitudeDesc_finite by assumption.
    destruct (Rlt_dec (magnitudeR x) (magnitudeR y)) as [Hlt | Hge].
    + rewrite Rltb_true by assumption. constructor.
      * apply IH; assumption.
      * apply (Permutation_Forall
                 (Permutation_sym (sortInsert_perm byMagnitudeDesc x l))).
        constructor; [unfold descending; lra | assumption].
    + rewrite Rltb_false by lra. constructor; [assumption |].
      constructor; [unfold descending; lra |].
      apply (Forall_impl _ (P := descending y)); [| assumption].
      unfold descending. intros b Hb. lra.
Qed.

Lemma Array_sort_sorted (l : list Asteroid) :
  Forall finiteMagnitude l ->
  StronglySorted descending (Array_sort byMagnitudeDesc l).
Proof.
  induction l as [| x l IH]; intros Hl; [constructor |].
  inversion Hl as [| ? ? Hx Hl']; subst.
  unfold Array_sort in *. cbn [fold_right].
  apply sortInsert_sorted; [assumption | | apply IH; assumption].
  apply (Permutation_Forall
           (Permutation_sym (Array_sort_perm byMagnitudeDesc l))).
  assumption.
Qed.

Lemma sortInsert_stable (k : R) (x : Asteroid) (l : list Asteroid) :
  finiteMagnitude x -> Forall finiteMagnitude l ->
  filter (hasMagnitude k) (sortInsert byMagnitudeDesc x l)
  = filter (hasMagnitude k) (x :: l).
Proof.
  intros Hx Hl. induction l as [| y l IH]; cbn [sortInsert]; [reflexivity |].
  inversion Hl as [| ? ? Hy Hl']; subst.
  rewrite byMagnitudeDesc_finite by assumption.
  destruct (Rlt_dec (magnitudeR x) (magnitudeR y)) as [Hlt | Hge].
  - rewrite Rltb_true by assumption. cbn [filter]. rewrite (IH Hl').
    cbn [filter]. unfold hasMagnitude, Reqb.
    destruct (Req_EM_T (magnitudeR x) k), (Req_EM_T (magnitudeR y) k);
      try reflexivity. lra.
  - rewrite Rltb_false by lra. reflexivity.
Qed.

Lemma Array_sort_stable (k : R) (l : list Asteroid) :
  Forall finiteMagnitude l ->
  filter (hasMagnitude k) (Array_sort byMagnitudeDesc l)
  = filter (hasMagnitude k) l.
Proof.
  induction l as [| x l IH]; intros Hl; [reflexivity |].
  inversion Hl as [| ? ? Hx Hl']; subst.
  unfold Array_sort in *. cbn [fold_right].
  rewrite sortInsert_stable.
  - cbn [filter]. rewrite (IH Hl'). reflexivity.
  - assumption.
  - apply (Permutation_Forall
             (Permutation_sym (Array_sort_perm byMagnitudeDesc l))).
    assumption.
Qed.

Lemma flattenDays_concat (days : list (string * list Asteroid)) :
  flattenDays days = List.concat (map snd days).
Proof.
  unfold flattenDays.
  assert (H : forall acc,
             fold_left (fun all day => all ++ snd day) days acc
             = acc ++ List.concat (map snd days)).
  { induction days as [| d days IH]; intros acc; cbn [fold_left map List.concat].
    - rewrite app_nil_r. reflexivity.
    - rewrite IH, app_assoc. reflexivity. }
  apply (H []).
Qed.

Lemma StronglySorted_app_inv {A : Type} (R : A -> A -> Prop)
    (l1 l2 : list A) :
  StronglySorted R (l1 ++ l2) ->
  StronglySorted R l1 /\ forall a b, In a l1 -> In b l2 -> R a b.
Proof.
  induction l1 as [| x l1 IH]; cbn [app]; intros H.
  - split; [constructor | intros a b []].
  - inversion H as [| ? ? Hs Hall]; subst. destruct (IH Hs) as [IH1 IH2].
    split.
    + constructor; [assumption |].
      apply Forall_forall. intros b Hb.
      apply (proj1 (Forall_forall _ _) Hall). apply in_or_app. left.
      assumption.
    + intros a b [<- | Ha] Hb.
      * apply (proj1 (Forall_forall _ _) Hall). apply in_or_app. right.
        assumption.
      * apply IH2; assumption.
Qed.

End SortProperties.

Section FetchProperties.

Import AsteroidSelector.

Lemma fetch_success_unfold (days : list (string * list Asteroid))
    (s : State) :
  fetchAsteroids (FetchResponse true (JsonFeed days)) s =
  {| asteroids := sortedAsteroids days; loading := false; error := None;
     toasts := toasts s;
     logged := List.length (sortedAsteroids days) :: logged s |}.
Proof. reflexivity. Qed.

Lemma sortedAsteroids_split (days : list (string * list Asteroid)) :
  Array_sort byMagnitudeDesc (List.concat (map snd days))
  = sortedAsteroids days
    ++ skipn 20 (Array_sort byMagnitudeDesc (List.concat (map snd days))).
Proof.
  unfold sortedAsteroids, slice0. rewrite flattenDays_concat.
  symmetry. apply firstn_skipn.
Qed.

(** X17: A successful fetch ends with [loading] false and the error cleared,
    raises no toast, and stores at most 20 asteroids: as many as the feed
    holds over all its days when that is fewer than 20.  Every asteroid
    stored comes from the feed, as often as it occurs there at most; this
    holds whatever the magnitudes are, NaN included. *)
Theorem fetch_success_keeps_at_most_twenty
    (days : list (string * list Asteroid)) (s : State) :
  let all := List.concat (map snd days) in
  let s' := fetchAsteroids (FetchResponse true (JsonFeed days)) s in
  loading s' = false /\ error s' = None /\ toasts s' = toasts s /\
  logged s' = List.length (asteroids s') :: logged s /\
  List.length (asteroids s') = Nat.min 20 (List.length all) /\
  exists rest, Permutation all (asteroids s' ++ rest).
Proof.
  intros all s'. unfold s'. rewrite fetch_success_unfold.
  cbn [loading error toasts logged asteroids].
  repeat split.
  - unfold sortedAsteroids, slice0. rewrite flattenDays_concat.
    rewrite length_firstn.
    rewrite (Permutation_length (Array_sort_perm byMagnitudeDesc _)).
    reflexivity.
  - exists (skipn 20 (Array_sort byMagnitudeDesc all)).
    unfold all. rewrite <- sortedAsteroids_split.
    symmetry. apply Array_sort_perm.
Qed.

(** X18: When every magnitude of the feed is finite, the asteroids stored are
    in descending order of [absolute_magnitude_h], no asteroid left out has
    a larger magnitude than one stored, and asteroids of equal magnitude
    are kept in feed order, the earlier ones first. *)
Theorem fetch_success_top_by_magnitude
    (days : list (string * list Asteroid)) (s : State) :
  let all := List.concat (map snd days) in
  let shown :=
    asteroids (fetchAsteroids (FetchResponse true (JsonFeed days)) s) in
  Forall finiteMagnitude all ->
  exists rest,
    Permutation all (shown ++ rest) /\
    StronglySorted descending shown /\
    (forall a b, In a shown -> In b rest ->
                 magnitudeR b <= magnitudeR a) /\
    (forall k, filter (hasMagnitude k) all
               = filter (hasMagnitude k) shown
                 ++ filter (hasMagnitude k) rest).
Proof.
  intros all shown Hfin. unfold shown. rewrite fetch_success_unfold.
  cbn [asteroids].
  exists (skipn 20 (Array_sort byMagnitudeDesc all)).
  pose proof (sortedAsteroids_split days) as Hsplit. fold all in Hsplit.
  pose proof (Array_sort_sorted all Hfin) as Hsorted.
  rewrite Hsplit in Hsorted.
  apply StronglySorted_app_inv in Hsorted. destruct Hsorted as [Hs Htop].
  split; [| split; [| split]].
  - rewrite <- Hsplit. symmetry. apply Array_sort_perm.
  - exact Hs.
  - intros a b Ha Hb. apply (Htop a b Ha Hb).
  - intros k. rewrite <- filter_app, <- Hsplit.
    symmetry. apply Array_sort_stable. exact Hfin.
Qed.

Lemma fetch_success_top_by_magnitude_witness :
  let days :=
    [("2024-01-01"%string,
      [withIdMagnitude "1" (Fin 18) (sampleAsteroid [] 1 1 false);
       withIdMagnitude "2" (Fin 22) (sampleAsteroid [] 1 1 false)]);
     ("2024-01-02"%string,
      [withIdMagnitude "3" (Fin 20) (sampleAsteroid [] 1 1 true)])] in
  let all := List.concat (map snd days) in
  let shown :=
    asteroids
      (fetchAsteroids (FetchResponse true (JsonFeed days))
         {| asteroids := []; loading := false; error := None;
            toasts := []; logged := [] |}) in
  Forall finiteMagnitude all /\
  exists rest,
    Permutation all (shown ++ rest) /\
    StronglySorted descending shown /\
    (forall a b, In a shown -> In b rest ->
                 magnitudeR b <= magnitudeR a) /\
    (forall k, filter (hasMagnitude k) all
               = filter (hasMagnitude k) shown
                 ++ filter (hasMagnitude k) rest).
Proof.
  intros days all shown.
  assert (Hfin : Forall finiteMagnitude all)
    by (repeat constructor).
  split; [exact Hfin |].
  exact (fetch_success_top_by_magnitude days
           {| asteroids := []; loading := false; error := None;
              toasts := []; logged := [] |} Hfin).
Defined.

(** X19: A fetch that fails leaves the list of asteroids as it was, ends
    with [loading] false, stores a message as the error and raises one
    destructive toast carrying it.  The message is the message of the
    [Error] thrown, a fixed text for a response that is not [ok], whatever
    its body, and another fixed text for a thrown value that is no
    [Error]. *)
Theorem fetch_failure_keeps_previous_list (net : FetchOutcome) (s : State) :
  (forall days, net <> FetchResponse true (JsonFeed days)) ->
  exists message,
    fetchAsteroids net s =
      {| asteroids := asteroids s; loading := false;
         error := Some message;
         toasts := {| title := "Error fetching asteroid data";
                      description := message;
                      variant := "destructive" |} :: toasts s;
         logged := logged s |} /\
    (forall body, net = FetchResponse false body ->
                  message = "Failed to fetch asteroid data"%string) /\
    (forall m, net = FetchRejected (ErrorObject m) \/
               net = FetchResponse true (JsonRejected (ErrorObject m)) ->
               message = m) /\
    (net = FetchRejected OtherThrown \/
     net = FetchResponse true (JsonRejected OtherThrown) ->
     message = "Unknown error occurred"%string).
Proof.
  intros Hfail.
  destruct net as [[m |] | [|] [[m |] | days]];
    try (exfalso; apply (Hfail days); reflexivity);
    eexists; (split; [reflexivity |]);
    repeat split; intros; repeat match goal with
                                 | H : _ \/ _ |- _ => destruct H
                                 end;
    try discriminate; try reflexivity;
    match goal with H : _ = _ |- _ => injection H as <-; reflexivity end.
Qed.

Lemma fetch_failure_keeps_previous_list_witness :
  exists message,
    fetchAsteroids (FetchResponse false (JsonFeed []))
      {| asteroids := [sampleAsteroid [] 1 1 false]; loading := false;
         error := None; toasts := []; logged := [1%nat] |} =
      {| asteroids := [sampleAsteroid [] 1 1 false]; loading := false;
         error := Some message;
         toasts := [{| title := "Error fetching asteroid data";
                       description := message;
                       variant := "destructive" |}];
         logged := [1%nat] |} /\
    (forall body, FetchResponse false (JsonFeed []) = FetchResponse false body ->
                  message = "Failed to fetch asteroid data"%string) /\
    (forall m, FetchResponse false (JsonFeed []) = FetchRejected (ErrorObject m) \/
               FetchResponse false (JsonFeed [])
               = FetchResponse true (JsonRejected (ErrorObject m)) ->
               message = m) /\
    (FetchResponse false (JsonFeed []) = FetchRejected OtherThrown \/
     FetchResponse false (JsonFeed [])
     = FetchResponse true (JsonRejected OtherThrown) ->
     message = "Unknown error occurred"%string).
Proof.
  apply (fetch_failure_keeps_previous_list
           (FetchResponse false (JsonFeed []))
           {| asteroids := [sampleAsteroid [] 1 1 false]; loading := false;
              error := None; toasts := []; logged := [1%nat] |}).
  intros days H. discriminate H.
Defined.

End FetchProperties.

(** * The closest approach shown by the selector *)

Section ClosestApproach.

Variable toFixed : number -> nat -> string.

Open Scope string_scope.

Lemma closerOf_finite (closest current : CloseApproach) :
  finiteDistance closest -> finiteDistance current ->
  closerOf closest current
  = if Rltb (distanceR current) (distanceR closest) then current
    else closest.
Proof.
  unfold finiteDistance, closerOf, distanceR, missDistance.
  destruct (parseFloat (kilometers (miss_distance closest)));
    try discriminate.
  destruct (parseFloat (kilometers (miss_distance current)));
    try discriminate.
  reflexivity.
Qed.

Lemma fold_closerOf_minimum (others : list CloseApproach)
    (first : CloseApproach) :
  finiteDistance first -> Forall finiteDistance others ->
  let c := fold_left closerOf others first in
  finiteDistance c /\ In c (first :: others) /\
  forall x, In x (first :: others) -> distanceR c <= distanceR x.
Proof.
  revert first. induction others as [| y others IH]; intros first Hf Ho.
  - cbn. split; [assumption |]. split; [left; reflexivity |].
    intros x [<- | []]. lra.
  - inversion Ho as [| ? ? Hy Ho']; subst. cbn [fold_left].
    rewrite closerOf_finite by assumption.
    destruct (Rlt_dec (distanceR y) (distanceR first)) as [Hlt | Hge].
    + rewrite Rltb_true by assumption.
      destruct (IH y Hy Ho') as [Hc [Hin Hmin]]. cbv zeta.
      split; [assumption |]. split.
      * destruct Hin as [<- | Hin]; [right; left; reflexivity |].
        right; right; assumption.
      * intros x [<- | [<- | Hx]].
        -- pose proof (Hmin y (or_introl eq_refl)). lra.
        -- apply Hmin. left. reflexivity.
        -- apply Hmin. right. assumption.
    + rewrite Rltb_false by lra.
      destruct (IH first Hf Ho') as [Hc [Hin Hmin]]. cbv zeta.
      split; [assumption |]. split.
      * destruct Hin as [<- | Hin]; [left; reflexivity |].
        right; right; assumption.
      * intros x [<- | [<- | Hx]].
        -- apply Hmin. left. reflexivity.
        -- pose proof (Hmin first (or_introl eq_refl)). lra.
        -- apply Hmin. right. assumption.
Qed.

Lemma finiteDistance_Fin (c : CloseApproach) :
  finiteDistance c -> missDistance c = Fin (distanceR c).
Proof.
  unfold finiteDistance, distanceR.
  destruct (missDistance c); try discriminate. reflexivity.
Qed.

Lemma getClosestApproachDistance_unfold (asteroid : Asteroid)
    (first : CloseApproach) (others : list CloseApproach) (d : R) :
  close_approach_data asteroid = first :: others ->
  missDistance (fold_left closerOf others first) = Fin d ->
  getClosestApproachDistance toFixed asteroid =
    if Rltb 1000000 d then toFixed (Fin (d / 1000000)) 1 ++ "M km"
    else if Rltb 1000 d then toFixed (Fin (d / 1000)) 0 ++ "K km"
    else toFixed (Fin d) 0 ++ " km".
Proof.
  intros Hl Hd. unfold getClosestApproachDistance. rewrite Hl.
  cbv zeta. unfold missDistance in Hd. rewrite Hd.
  rewrite !gt_Fin, !div_Fin by lra. reflexivity.
Qed.

(** X20: When every record has a finite miss distance, the distance the
    selector prints is the smallest of them, scaled and suffixed by its
    size: millions above 1000000 km, thousands above 1000 km, plain
    kilometres otherwise. *)
Theorem closest_distance_shown_is_minimum (asteroid : Asteroid)
    (first : CloseApproach) (others : list CloseApproach) :
  close_approach_data asteroid = first :: others ->
  Forall finiteDistance (first :: others) ->
  exists c d,
    In c (first :: others) /\ missDistance c = Fin d /\
    (forall x, In x (first :: others) -> d <= distanceR x) /\
    getClosestApproachDistance toFixed asteroid =
      if Rltb 1000000 d then toFixed (Fin (d / 1000000)) 1 ++ "M km"
      else if Rltb 1000 d then toFixed (Fin (d / 1000)) 0 ++ "K km"
      else toFixed (Fin d) 0 ++ " km".
Proof.
  intros Hl Hfin. inversion Hfin as [| ? ? Hf Ho]; subst.
  destruct (fold_closerOf_minimum others first Hf Ho) as [Hc [Hin Hmin]].
  exists (fold_left closerOf others first),
         (distanceR (fold_left closerOf others first)).
  split; [assumption |].
  split; [apply finiteDistance_Fin; assumption |].
  split; [assumption |].
  apply (getClosestApproachDistance_unfold asteroid first others);
    [assumption | apply finiteDistance_Fin; assumption].
Qed.

(** X21: The selector and the estimator read the same records
    differently: the selector prints [dmin], the smallest miss distance of
    all the records, the estimator consults [d0], that of the first.  So
    the distance printed is never above the one analysed, and
    when it is below 1.5 * 6371 while the first record is not, the
    estimator reports no collision for an asteroid shown within collision
    range. *)
Theorem estimator_may_miss_the_closest_approach (asteroid : Asteroid)
    (first : CloseApproach) (others : list CloseApproach) (w : World) :
  close_approach_data asteroid = first :: others ->
  Forall finiteDistance (first :: others) ->
  exists r w' dmin d0,
    analysisResult asteroid w = (Normal r, w') /\
    missDistance first = Fin d0 /\
    (exists c, In c (first :: others) /\ missDistance c = Fin dmin) /\
    getClosestApproachDistance toFixed asteroid =
      (if Rltb 1000000 dmin
       then toFixed (Fin (dmin / 1000000)) 1 ++ "M km"
       else if Rltb 1000 dmin then toFixed (Fin (dmin / 1000)) 0 ++ "K km"
       else toFixed (Fin dmin) 0 ++ " km") /\
    (forall x, In x (first :: others) -> dmin <= distanceR x) /\
    dmin <= d0 /\
    (willCollide r = true <-> d0 < 1.5 * 6371) /\
    (dmin < 1.5 * 6371 <= d0 -> willCollide r = false).
Proof.
  intros Hl Hfin. inversion Hfin as [| ? ? Hf Ho]; subst.
  destruct (fold_closerOf_minimum others first Hf Ho) as [Hc [Hin Hmin]].
  assert (Hca : closestApproach asteroid = Some first)
    by (unfold closestApproach; rewrite Hl; reflexivity).
  pose proof (analysisResult_normal asteroid first w Hca) as Hr.
  cbv zeta in Hr.
  eexists. eexists.
  exists (distanceR (fold_left closerOf others first)), (distanceR first).
  split; [exact Hr |].
  split; [apply finiteDistance_Fin; assumption |].
  split.
  { exists (fold_left closerOf others first).
    split; [assumption | apply finiteDistance_Fin; assumption]. }
  split.
  { apply (getClosestApproachDistance_unfold asteroid first others);
      [assumption | apply finiteDistance_Fin; assumption]. }
  split; [exact Hmin |].
  split; [apply Hmin; left; reflexivity |].
  cbn [willCollide]. rewrite distanceBand_willCollide.
  rewrite (finiteDistance_Fin first Hf). cbn [lt].
  split; [apply Rltb_true_iff |].
  intros [_ Hge]. apply Rltb_false. assumption.
Qed.

(** X22: Records the estimator cannot take: with no record at all the selector
    prints "Unknown", where the estimator throws. *)
Theorem no_approach_selector_guards_estimator_throws (asteroid : Asteroid)
    (w : World) :
  close_approach_data asteroid = [] ->
  getClosestApproachDistance toFixed asteroid = "Unknown" /\
  analysisResult asteroid w = (Throw TypeError, w).
Proof.
  intros Hl. unfold getClosestApproachDistance, analysisResult,
    closestApproach. rewrite Hl. split; reflexivity.
Qed.

Lemma fold_closerOf_NaN (others : list CloseApproach)
    (first : CloseApproach) :
  missDistance first = NaN -> fold_left closerOf others first = first.
Proof.
  intros HN. induction others as [| y others IH]; [reflexivity |].
  cbn [fold_left]. unfold closerOf at 2. unfold missDistance in HN.
  rewrite HN.
  destruct (parseFloat (kilometers (miss_distance y))); cbn [lt]; exact IH.
Qed.

(** X23: When the first record's miss distance does not parse, no later record
    replaces it, however close: the selector prints [toFixed(NaN, 0)]
    followed by " km". *)
Theorem unparseable_first_distance_hides_the_rest (asteroid : Asteroid)
    (first : CloseApproach) (others : list CloseApproach) :
  close_approach_data asteroid = first :: others ->
  missDistance first = NaN ->
  getClosestApproachDistance toFixed asteroid = toFixed NaN 0 ++ " km".
Proof.
  intros Hl HN. unfold getClosestApproachDistance. rewrite Hl. cbv zeta.
  rewrite (fold_closerOf_NaN others first HN).
  unfold missDistance in HN. rewrite HN. reflexivity.
Qed.

End ClosestApproach.

Lemma closest_distance_shown_is_minimum_witness :
  exists c d,
    In c [sampleApproach "70000" "20"; sampleApproach "5000" "20"] /\
    missDistance c = Fin d /\
    (forall x,
       In x [sampleApproach "70000" "20"; sampleApproach "5000" "20"] ->
       d <= distanceR x) /\
    getClosestApproachDistance sampleToFixed
      (sampleAsteroid
         [sampleApproach "70000" "20"; sampleApproach "5000" "20"]
         1 1 false) =
      (if Rltb 1000000 d
       then sampleToFixed (Fin (d / 1000000)) 1 ++ "M km"
       else if Rltb 1000 d then sampleToFixed (Fin (d / 1000)) 0 ++ "K km"
       else sampleToFixed (Fin d) 0 ++ " km")%string.
Proof.
  apply (closest_distance_shown_is_minimum sampleToFixed
           (sampleAsteroid
              [sampleApproach "70000" "20"; sampleApproach "5000" "20"]
              1 1 false)
           (sampleApproach "70000" "20") [sampleApproach "5000" "20"]).
  - reflexivity.
  - repeat constructor.
Defined.

Lemma estimator_may_miss_the_closest_approach_witness :
  exists r w' dmin d0,
    analysisResult
      (sampleAsteroid
         [sampleApproach "70000" "20"; sampleApproach "5000" "20"]
         1 1 false)
      (constWorld 1700000000000 0.5) = (Normal r, w') /\
    missDistance (sampleApproach "70000" "20") = Fin d0 /\
    (exists c,
       In c [sampleApproach "70000" "20"; sampleApproach "5000" "20"] /\
       missDistance c = Fin dmin) /\
    getClosestApproachDistance sampleToFixed
      (sampleAsteroid
         [sampleApproach "70000" "20"; sampleApproach "5000" "20"]
         1 1 false) =
      (if Rltb 1000000 dmin
       then sampleToFixed (Fin (dmin / 1000000)) 1 ++ "M km"
       else if Rltb 1000 dmin
            then sampleToFixed (Fin (dmin / 1000)) 0 ++ "K km"
       else sampleToFixed (Fin dmin) 0 ++ " km")%string /\
    (forall x,
       In x [sampleApproach "70000" "20"; sampleApproach "5000" "20"] ->
       dmin <= distanceR x) /\
    dmin <= d0 /\
    (willCollide r = true <-> d0 < 1.5 * 6371) /\
    (dmin < 1.5 * 6371 <= d0 -> willCollide r = false).
Proof.
  apply (estimator_may_miss_the_closest_approach sampleToFixed
           (sampleAsteroid
              [sampleApproach "70000" "20"; sampleApproach "5000" "20"]
              1 1 false)
           (sampleApproach "70000" "20") [sampleApproach "5000" "20"]).
  - reflexivity.
  - repeat constructor.
Defined.

Lemma no_approach_selector_guards_estimator_throws_witness :
  getClosestApproachDistance sampleToFixed (sampleAsteroid [] 1 1 false)
    = "Unknown"%string /\
  analysisResult (sampleAsteroid [] 1 1 false)
    (constWorld 1700000000000 0.5)
    = (Throw TypeError, constWorld 1700000000000 0.5).
Proof.
  apply (no_approach_selector_guards_estimator_throws sampleToFixed
           (sampleAsteroid [] 1 1 false) (constWorld 1700000000000 0.5)).
  reflexivity.
Defined.

Lemma unparseable_first_distance_hides_the_rest_witness :
  getClosestApproachDistance sampleToFixed
    (sampleAsteroid
       [sampleApproach "unknown" "20"; sampleApproach "5000" "20"]
       1 1 false)
  = (sampleToFixed NaN 0 ++ " km")%string.
Proof.
  apply (unparseable_first_distance_hides_the_rest sampleToFixed
           (sampleAsteroid
              [sampleApproach "unknown" "20"; sampleApproach "5000" "20"]
              1 1 false)
           (sampleApproach "unknown" "20") [sampleApproach "5000" "20"]).
  - reflexivity.
  - exact parseFloat_unknown.
Defined.

(** * [ImpactSimulation] *)

Section SimulationProperties.

Import ImpactSimulation.

Lemma startSimulation_run (l : Location) (s : State) :
  map simulationPhase (fst (startSimulation l s)) = phases /\
  Forall (fun f => isSimulating f = true /\ selectedLocation f = Some l)
    (fst (startSimulation l s)) /\
  snd (startSimulation l s) =
    {| selectedLocation := Some l; isSimulating := false;
       simulationPhase := "Simulation complete.";
       startSignals := S (startSignals s) |}.
Proof.
  split; [reflexivity |]. split; [| reflexivity].
  repeat constructor.
Qed.

(** X24: The button labelled "Start Random Impact Simulation" picks nothing at
    random: pressed in an idle component with no location selected, it runs
    the simulation at the first location of the table, latitude 0 and
    longitude -150, through the eight phases in order, and ends idle on
    "Simulation complete." with [onStartSimulation] called once. *)
Theorem start_button_simulates_first_location (s : State) :
  isSimulating s = false ->
  selectedLocation s = None ->
  let l := {| lat := Fin 0; lng := Fin (-150) |} in
  handleClick StartButton s = snd (startSimulation l s) /\
  map simulationPhase (fst (startSimulation l s)) = phases /\
  Forall (fun f => isSimulating f = true /\ selectedLocation f = Some l)
    (fst (startSimulation l s)) /\
  handleClick StartButton s =
    {| selectedLocation := Some l; isSimulating := false;
       simulationPhase := "Simulation complete.";
       startSignals := S (startSignals s) |}.
Proof.
  intros Hidle Hnone l. unfold handleClick. rewrite Hidle, Hnone.
  cbn [nth_error impactLocations location].
  destruct (startSimulation_run l s) as [Hp [Hf Hs]].
  repeat split; assumption.
Qed.

Lemma handleClick_keeps_location (c : Click) (s : State) :
  selectedLocation s <> None ->
  selectedLocation (handleClick c s) <> None.
Proof.
  intros H. unfold handleClick. destruct (isSimulating s); [assumption |].
  destruct c as [| i].
  - destruct (selectedLocation s) eqn:E; [| contradiction].
    rewrite E. discriminate.
  - destruct (nth_error impactLocations i); [| assumption].
    cbn. discriminate.
Qed.

(** X25: A selected location is never cleared, so the start button works once:
    after any sequence of clicks on a component that has a location
    selected, a location is still selected and pressing the start button
    changes nothing. *)
Theorem start_button_dead_after_first_run (cs : list Click) (s : State) :
  selectedLocation s <> None ->
  let s' := fold_left (fun s c => handleClick c s) cs s in
  selectedLocation s' <> None /\ handleClick StartButton s' = s'.
Proof.
  revert s. induction cs as [| c cs IH]; intros s H; cbn [fold_left].
  - split; [assumption |]. unfold handleClick.
    destruct (isSimulating s); [reflexivity |].
    destruct (selectedLocation s); [reflexivity | contradiction].
  - apply IH. apply handleClick_keeps_location. assumption.
Qed.

End SimulationProperties.

Lemma start_button_simulates_first_location_witness :
  let s :=
    {| ImpactSimulation.selectedLocation := None;
       ImpactSimulation.isSimulating := false;
       ImpactSimulation.simulationPhase := "";
       ImpactSimulation.startSignals := 0 |} in
  let l := {| ImpactSimulation.lat := Fin 0;
              ImpactSimulation.lng := Fin (-150) |} in
  ImpactSimulation.handleClick ImpactSimulation.StartButton s
    = snd (ImpactSimulation.startSimulation l s) /\
  map ImpactSimulation.simulationPhase
    (fst (ImpactSimulation.startSimulation l s))
    = ImpactSimulation.phases /\
  Forall (fun f => ImpactSimulation.isSimulating f = true /\
                   ImpactSimulation.selectedLocation f = Some l)
    (fst (ImpactSimulation.startSimulation l s)) /\
  ImpactSimulation.handleClick ImpactSimulation.StartButton s =
    {| ImpactSimulation.selectedLocation := Some l;
       ImpactSimulation.isSimulating := false;
       ImpactSimulation.simulationPhase := "Simulation complete.";
       ImpactSimulation.startSignals := 1 |}.
Proof.
  apply (start_button_simulates_first_location
           {| ImpactSimulation.selectedLocation := None;
              ImpactSimulation.isSimulating := false;
              ImpactSimulation.simulationPhase := "";
              ImpactSimulation.startSignals := 0 |});
    reflexivity.
Defined.

Lemma start_button_dead_after_first_run_witness :
  let s :=
    {| ImpactSimulation.selectedLocation :=
         Some {| ImpactSimulation.lat := Fin 23;
                 ImpactSimulation.lng := Fin 10 |};
       ImpactSimulation.isSimulating := false;
       ImpactSimulation.simulationPhase := "Simulation complete.";
       ImpactSimulation.startSignals := 1 |} in
  let s' :=
    fold_left (fun s c => ImpactSimulation.handleClick c s)
      [ImpactSimulation.Marker 3; ImpactSimulation.StartButton] s in
  ImpactSimulation.selectedLocation s' <> None /\
  ImpactSimulation.handleClick ImpactSimulation.StartButton s' = s'.
Proof.
  apply (start_button_dead_after_first_run
           [ImpactSimulation.Marker 3; ImpactSimulation.StartButton]
           {| ImpactSimulation.selectedLocation :=
                Some {| ImpactSimulation.lat := Fin 23;
                        ImpactSimulation.lng := Fin 10 |};
              ImpactSimulation.isSimulating := false;
              ImpactSimulation.simulationPhase := "Simulation complete.";
              ImpactSimulation.startSignals := 1 |}).
  discriminate.
Defined.
